(** * Texture extraction: archive index reader and conversion pipeline

    A shallow embedding of [texture_extraction/extract_final.py]: the
    metadata parser [parse_texture_map], the backend chain [convert] with
    its four backends, and the orchestrating loop of [main].

    Conventions of the embedding.
    - Python integers are unbounded, so offsets and lengths are [N] and
      no arithmetic wraps.
    - [bytes] is [list byte].  A Python [str] is a Rocq [string] holding
      its UTF-8 encoding; the only non-ASCII character the program ever
      creates is U+FFFD, produced by [decode(errors='replace')].
    - A raised exception is a value of [pyexc]; a call that may raise
      returns [result].
    - The file system is split in the read-only blob store, the scratch
      file handed to the backends, and the tree of files reachable through
      destination paths, a [gmap string file].  Directories are not part
      of the tree: [os.path.exists] is membership in the tree, and
      [os.makedirs] either raises or leaves the tree as it was.
    - Third-party code ([imageio], [Wand], [Pillow], the [texconv]
      executable, [os.path], [os.makedirs], [shutil.copy2]) is a field of
      the record [World].  The calls of [main] that sit outside its [try]
      blocks, [os.makedirs] and [shutil.copy2], end the run when they
      raise.  [print], and the creation and removal of the temporary
      directory, are taken to succeed. *)

From Stdlib Require Import Strings.Byte Strings.Ascii NArith Lia.
From stdpp Require Import base gmap strings list pretty.

Open Scope string_scope.

(** ** Exceptions *)

(** The exception classes the program tells apart or raises itself, each
    with its message; [OtherError] is any other subclass of [Exception]. *)
Inductive pyexc :=
  | ImportError (msg : string)
  | StructError (msg : string)
  | FileNotFoundError (msg : string)
  | RuntimeError (msg : string)
  | OtherError (msg : string).

(** [str(e)] *)
Definition exc_str (e : pyexc) : string :=
  match e with
  | ImportError msg | StructError msg | FileNotFoundError msg
  | RuntimeError msg | OtherError msg => msg
  end.

Inductive result (A : Type) :=
  | Return (a : A)
  | Raise (e : pyexc).
Arguments Return {A} a.
Arguments Raise {A} e.

#[global] Instance result_ret : MRet result := λ A a, Return a.
#[global] Instance result_bind : MBind result := λ A B f r,
  match r with
  | Return a => f a
  | Raise e => Raise e
  end.

(** ** Bytes *)

(** Little-endian unsigned value of a byte string. *)
Definition le_decode (bs : list byte) : N :=
  foldr (λ b acc, Byte.to_N b + 256 * acc)%N 0%N bs.

(** The message of the [struct.error] of [unpack_from]. *)
Definition buffer_too_small (size : nat) (offset : N) (len : nat) : string :=
  "unpack_from requires a buffer of at least "
    +:+ pretty (offset + N.of_nat size)%N
    +:+ " bytes for unpacking " +:+ pretty size
    +:+ " bytes at offset " +:+ pretty offset
    +:+ " (actual buffer size is " +:+ pretty len +:+ ")".

(** [struct.unpack_from(fmt, data, offset)[0]] for an unsigned
    little-endian format of [size] bytes; [struct.error] when the buffer
    does not hold [size] bytes at [offset]. *)
Definition unpack_from (size : nat) (data : list byte) (offset : N) : result N :=
  if (offset + N.of_nat size <=? N.of_nat (length data))%N
  then Return (le_decode (take size (drop (N.to_nat offset) data)))
  else Raise (StructError (buffer_too_small size offset (length data))).

(** ['<I'] and ['<Q'] *)
Definition unpack_I := unpack_from 4.
Definition unpack_Q := unpack_from 8.

(** [data[start:stop]] for non-negative bounds: the slice is clamped to
    the buffer and never raises. *)
Definition bytes_slice (data : list byte) (start stop : N) : list byte :=
  take (N.to_nat stop - N.to_nat start) (drop (N.to_nat start) data).

(** U+FFFD REPLACEMENT CHARACTER, in UTF-8. *)
Definition replacement_character : string :=
  String (ascii_of_nat 239) (String (ascii_of_nat 191) (String (ascii_of_nat 189) "")).

(** [bs.decode('ascii', errors='replace')] *)
Fixpoint decode_ascii_replace (bs : list byte) : string :=
  match bs with
  | [] => ""
  | b :: bs' =>
      if (Byte.to_N b <? 128)%N
      then String (ascii_of_byte b) (decode_ascii_replace bs')
      else replacement_character +:+ decode_ascii_replace bs'
  end.

(** ** Metadata parsing *)

Definition N_TEXTURES : nat := 549.

(** Body of the loop of [parse_texture_map] for one identifier [n]:
    [Return None] is the [continue] and the fall-through without an
    assignment, [Return (Some path)] the assignment [index_map[n] = path]. *)
Definition parse_entry (data : list byte) (table_off comp_off : N) (n : nat)
  : result (option string) :=
  slot ← unpack_I data (comp_off + N.of_nat n * 4)%N;
  let off := (table_off + slot * 32)%N in
  if (N.of_nat (length data) <? off + 32)%N then Return None else
  str_abs ← unpack_Q data (off + 8)%N;
  str_len ← unpack_Q data (off + 16)%N;
  if (0 <? str_len)%N && (0 <? str_abs)%N && (str_abs <? N.of_nat (length data))%N
  then Return (Some (decode_ascii_replace (bytes_slice data str_abs (str_abs + str_len))))
  else Return None.

(** The loop [for n in range(...)], over the identifiers still to visit. *)
Fixpoint parse_loop (data : list byte) (table_off comp_off : N) (ns : list nat)
    (index_map : gmap nat string) : result (gmap nat string) :=
  match ns with
  | [] => Return index_map
  | n :: ns' =>
      match parse_entry data table_off comp_off n with
      | Raise e => Raise e
      | Return None => parse_loop data table_off comp_off ns' index_map
      | Return (Some path) =>
          parse_loop data table_off comp_off ns' (<[n := path]> index_map)
      end
  end.

(** [parse_texture_map] with the module constant [N_TEXTURES] as an
    argument. *)
Definition parse_texture_map_n (n_textures : nat) (data : list byte)
  : result (gmap nat string) :=
  table_off ← unpack_I data 128%N;
  comp_off ← unpack_I data 152%N;
  parse_loop data table_off comp_off (seq 0 n_textures) ∅.

(** [parse_texture_map(meta_path)]; [meta] is the content of the file at
    [meta_path], [None] when there is no such file. *)
Definition parse_texture_map (meta : option (list byte)) : result (gmap nat string) :=
  match meta with
  | None =>
      Raise (FileNotFoundError
               ("[Errno 2] No such file or directory: "
                  +:+ "'D:\\mio\\decomp\\assets\\decompiled\\assets\\ARCHIVE_METADATA'"))
  | Some data => parse_texture_map_n N_TEXTURES data
  end.

(** ** Images *)

(** A [numpy.ndarray], C-contiguous: element type, shape and the samples
    in row-major order. *)
Record ndarray := {
  dtype : string;
  shape : list nat;
  buffer : list N }.

Definition ndim (a : ndarray) : nat := length (shape a).

(** [np.zeros(sh, dtype=dt)] *)
Definition np_zeros (sh : list nat) (dt : string) : ndarray :=
  {| dtype := dt; shape := sh; buffer := replicate (foldr Nat.mul 1 sh) 0%N |}.

(** [a[y, x, c]] of a three-dimensional array *)
Definition item3 (a : ndarray) (y x c : nat) : N :=
  nth ((y * nth 1 (shape a) 0 + x) * nth 2 (shape a) 0 + c) (buffer a) 0%N.

(** [a[:, :, c]]: the plane of channel [c], row-major. *)
Definition channel (a : ndarray) (c : nat) : list N :=
  (λ p, nth (p * nth 2 (shape a) 0 + c) (buffer a) 0%N)
    <$> seq 0 (nth 0 (shape a) 0 * nth 1 (shape a) 0).

(** [a[:, :, c] = plane] *)
Definition set_channel (a : ndarray) (c : nat) (plane : list N) : ndarray :=
  {| dtype := dtype a;
     shape := shape a;
     buffer := imap (λ i v, if decide (i mod nth 2 (shape a) 0 = c)
                            then nth (i / nth 2 (shape a) 0) plane 0%N
                            else v) (buffer a) |}.

(** The padding step of [try_imageio]: a two-channel image becomes RGBA. *)
Definition rg_to_rgba (img : ndarray) : ndarray :=
  if decide (ndim img = 3 ∧ nth 2 (shape img) 0 = 2) then
    let h := nth 0 (shape img) 0 in
    let w := nth 1 (shape img) 0 in
    let rgba := np_zeros [h; w; 4] (dtype img) in
    let rgba := set_channel rgba 0 (channel img 0) in
    let rgba := set_channel rgba 1 (channel img 1) in
    rgba
  else img.

(** ** Files and the world around the program *)

(** A file is raw bytes, or a PNG image standing for its encoding. *)
Inductive file :=
  | Raw (content : list byte)
  | Png (img : ndarray).

Definition file_is_empty (f : file) : bool :=
  match f with
  | Raw [] => true
  | _ => false
  end.

(** The scratch copy of a blob: its path and its content. *)
Record scratch := {
  src_path : string;
  src_file : file }.

(** Output of [subprocess.run(..., capture_output=True, text=True)] *)
Record completed_process := {
  proc_stdout : string;
  proc_stderr : string }.

Record World := {
  (** [os.path] and [os.sep] *)
  path_join : string → string → string;
  path_dirname : string → string;
  path_basename : string → string;
  path_splitext : string → string * string;
  os_sep : string;
  (** the directory made by [tempfile.TemporaryDirectory()] *)
  tmp_dir : string;
  (** an [import] statement: the exception it raises, if any *)
  py_import : string → option pyexc;
  (** [imageio.v3.imread], [imageio.v3.imwrite] *)
  iio_imread : scratch → result ndarray;
  iio_imwrite : string → ndarray → gmap string file → option pyexc * gmap string file;
  (** [wand.image.Image(filename=...)] and its [save] *)
  wand_open : scratch → result ndarray;
  wand_save : string → ndarray → gmap string file → option pyexc * gmap string file;
  (** [PIL.Image.open] and [save(dst, 'PNG')] *)
  pil_open : scratch → result ndarray;
  pil_save : string → ndarray → gmap string file → option pyexc * gmap string file;
  (** [subprocess.run(argv, ...)] reading the scratch file *)
  subprocess_run : list string → scratch → gmap string file
                   → result completed_process * gmap string file;
  (** the file at [ARCHIVE_META], if there is one *)
  archive_meta : option (list byte);
  (** the files of [TEXTURE_DIR], by name *)
  texture_dir : gmap string file;
  (** [os.makedirs(path, exist_ok=True)] on the tree: the exception it
      raises, if any *)
  os_makedirs : string → gmap string file → option pyexc;
  (** [shutil.copy2(src, dst)] of a blob to its scratch path: the
      exception it raises, if any *)
  shutil_copy2 : string → string → option pyexc }.

(** ** Strings *)

Definition newline : string := String (ascii_of_nat 10) "".

(** ASCII characters for which [str.isspace] holds. *)
Definition is_space (c : ascii) : bool :=
  let n := nat_of_ascii c in
  ((n =? 32) || ((9 <=? n) && (n <=? 13)) || ((28 <=? n) && (n <=? 31)))%nat.

Fixpoint lstrip (s : string) : string :=
  match s with
  | String c s' => if is_space c then lstrip s' else s
  | EmptyString => EmptyString
  end.

(** [s.strip()], for ASCII white space. *)
Definition strip (s : string) : string :=
  String.rev (lstrip (String.rev (lstrip s))).

(** [a or b] on strings *)
Definition str_or (a b : string) : string :=
  match a with
  | EmptyString => b
  | _ => a
  end.

(** ASCII line boundaries of [str.splitlines] other than the pair CR LF. *)
Definition is_linebreak (c : ascii) : bool :=
  let n := nat_of_ascii c in
  (((10 <=? n) && (n <=? 13)) || ((28 <=? n) && (n <=? 30)))%nat.

Fixpoint splitlines_go (cur : string) (after_cr : bool) (s : string) : list string :=
  match s with
  | EmptyString => match cur with EmptyString => [] | _ => [cur] end
  | String c s' =>
      if after_cr && (nat_of_ascii c =? 10)%nat then splitlines_go cur false s'
      else if is_linebreak c then cur :: splitlines_go EmptyString (nat_of_ascii c =? 13)%nat s'
      else splitlines_go (cur +:+ String c EmptyString) false s'
  end.

(** [s.splitlines()], for the ASCII line boundaries. *)
Definition splitlines (s : string) : list string := splitlines_go EmptyString false s.

(** [s.replace(old, new)] for a one-character [old] *)
Fixpoint replace_char (old : ascii) (new : string) (s : string) : string :=
  match s with
  | EmptyString => EmptyString
  | String c s' =>
      if decide (c = old) then new +:+ replace_char old new s'
      else String c (replace_char old new s')
  end.

(** [c * n] *)
Fixpoint str_repeat (c : string) (n : nat) : string :=
  match n with
  | O => EmptyString
  | S n' => c +:+ str_repeat c n'
  end.

(** The format [{s:<width}] *)
Definition ljust (s : string) (width : nat) : string :=
  s +:+ str_repeat " " (width - String.length s).

(** ** Configuration *)

Definition TEXTURE_DIR : string := "D:\mio\decomp\assets\decompiled\assets".
Definition OUTPUT_DIR : string := "D:\mio\textures_final".
Definition TEXCONV : string := "D:\mio\texconv.exe".

(** ** Conversion backends

    A backend takes the scratch file, the destination path and the tree;
    it gives the exception it raised, if any, and the tree it leaves. *)

Definition try_imageio (W : World) (src : scratch) (dst : string)
    (fs : gmap string file) : option pyexc * gmap string file :=
  match py_import W "imageio.v3" with
  | Some e => (Some e, fs)
  | None =>
  match py_import W "numpy" with
  | Some e => (Some e, fs)
  | None =>
  match iio_imread W src with
  | Raise e => (Some e, fs)
  | Return img => iio_imwrite W dst (rg_to_rgba img) fs
  end end end.

Definition try_wand (W : World) (src : scratch) (dst : string)
    (fs : gmap string file) : option pyexc * gmap string file :=
  match py_import W "wand.image" with
  | Some e => (Some e, fs)
  | None =>
  match wand_open W src with
  | Raise e => (Some e, fs)
  | Return img => wand_save W dst img fs
  end end.

Definition try_pillow (W : World) (src : scratch) (dst : string)
    (fs : gmap string file) : option pyexc * gmap string file :=
  match py_import W "PIL" with
  | Some e => (Some e, fs)
  | None =>
  match pil_open W src with
  | Raise e => (Some e, fs)
  | Return img => pil_save W dst img fs
  end end.

Definition try_texconv (W : World) (src : scratch) (dst : string)
    (fs : gmap string file) : option pyexc * gmap string file :=
  let out_dir := path_dirname W dst in
  let stem := (path_splitext W (path_basename W (src_path src))).1 in
  match subprocess_run W
          [TEXCONV; "-ft"; "png"; "-o"; out_dir; "-y"; "-nologo"; src_path src]
          src fs with
  | (Raise e, fs1) => (Some e, fs1)
  | (Return proc, fs1) =>
      let expected := path_join W out_dir (stem +:+ ".png") in
      match fs1 !! expected with
      | Some f =>
          if decide (expected = dst) then (None, fs1)
          else (None, <[dst := f]> (delete expected fs1))
      | None =>
          (Some (RuntimeError
                   (str_or (strip (proc_stdout proc))
                      (str_or (strip (proc_stderr proc)) "no output file"))),
           fs1)
      end
  end.

Definition BACKENDS (W : World)
  : list (string * (scratch → string → gmap string file
                    → option pyexc * gmap string file)) :=
  [ ("imageio", try_imageio W);
    ("Wand",    try_wand W);
    ("Pillow",  try_pillow W);
    ("texconv", try_texconv W) ].

(** The message of the error raised once the backends are exhausted. *)
Definition all_failed (errors : list string) : string :=
  "All backends failed:" +:+ newline +:+ "    "
    +:+ String.concat (newline +:+ "    ") errors.

(** The loop of [convert] over the backends still to try, with the
    [errors] gathered so far. *)
Fixpoint convert_loop
    (backends : list (string * (scratch → string → gmap string file
                                → option pyexc * gmap string file)))
    (errors : list string) (src : scratch) (dst : string)
    (fs : gmap string file) : result string * gmap string file :=
  match backends with
  | [] => (Raise (RuntimeError (all_failed errors)), fs)
  | (name, fn) :: rest =>
      match fn src dst fs with
      | (None, fs') =>
          if decide (is_Some (fs' !! dst)) then (Return name, fs')
          else convert_loop rest errors src dst fs'
      | (Some (ImportError _), fs') => convert_loop rest errors src dst fs'
      | (Some e, fs') =>
          convert_loop rest (errors ++ [name +:+ ": " +:+ exc_str e]) src dst fs'
      end
  end.

(** [convert] over a given list of backends. *)
Definition convert_with
    (backends : list (string * (scratch → string → gmap string file
                                → option pyexc * gmap string file)))
    (src : scratch) (dst : string) (fs : gmap string file)
  : result string * gmap string file :=
  convert_loop backends [] src dst fs.

Definition convert (W : World) (src : scratch) (dst : string)
    (fs : gmap string file) : result string * gmap string file :=
  convert_with (BACKENDS W) src dst fs.

(** ** Main *)

(** The variables of [main] that the loop updates, the lines printed so
    far (one per call of [print]) and the tree. *)
Record run_state := {
  ok : nat;
  failed : list (nat * string * string);
  missing : list nat;
  printed : list string;
  fs : gmap string file }.

Definition texture_key (n : nat) : string := "texture_" +:+ pretty n.

(** Destination and label of identifier [n], from its resolved path. *)
Definition destination (W : World) (unmatched_dir key : string)
    (game_path : option string) : string * string :=
  match game_path with
  | Some (String c p as gp) =>
      let game_dir := path_dirname W gp in
      let game_stem := (path_splitext W (path_basename W gp)).1 in
      let out_subdir :=
        path_join W OUTPUT_DIR
          (replace_char (ascii_of_nat 47) (os_sep W) game_dir) in
      (path_join W out_subdir (game_stem +:+ ".png"),
       game_dir +:+ "/" +:+ game_stem +:+ ".png")
  | _ =>
      (path_join W unmatched_dir (key +:+ ".png"),
       "_unmatched/" +:+ key +:+ ".png")
  end.

(** The directory that [main] makes before it converts identifier [n]:
    [out_subdir] when a path was resolved, [unmatched_dir] otherwise. *)
Definition destination_dir (W : World) (unmatched_dir : string)
    (game_path : option string) : string :=
  match game_path with
  | Some (String c p as gp) =>
      path_join W OUTPUT_DIR
        (replace_char (ascii_of_nat 47) (os_sep W) (path_dirname W gp))
  | _ => unmatched_dir
  end.

(** [if game_path:] *)
Definition truthy (game_path : option string) : bool :=
  match game_path with
  | Some (String _ _) => true
  | _ => false
  end.

(** The scratch copy of the blob of identifier [n], [tmp_dds]. *)
Definition scratch_of (W : World) (n : nat) (blob : file) : scratch :=
  {| src_path := path_join W (tmp_dir W) (texture_key n +:+ ".dds");
     src_file := blob |}.

(** The state after the iteration of an identifier without a blob. *)
Definition skipped (st : run_state) (n : nat) : run_state :=
  {| ok := ok st; failed := failed st;
     missing := missing st ++ [n];
     printed := printed st ++ ["  [MISSING] " +:+ texture_key n];
     fs := fs st |}.

(** The [try] around [convert]: the state after the iteration of
    identifier [n], from what [convert] returned or raised and the tree
    it left. *)
Definition converted (st : run_state) (n : nat) (game_path : option string)
    (label : string) (outcome : result string * gmap string file) : run_state :=
  match outcome with
  | (Return backend, fs') =>
      let tag := if truthy game_path then "OK:" +:+ ljust backend 8
                 else "UNMATCHED  " in
      {| ok := ok st + 1; failed := failed st; missing := missing st;
         printed := printed st
           ++ ["  [" +:+ tag +:+ "] " +:+ texture_key n +:+ " -> " +:+ label];
         fs := fs' |}
  | (Raise e, fs') =>
      {| ok := ok st;
         failed := failed st ++ [(n, label, exc_str e)];
         missing := missing st;
         printed := printed st
           ++ ["  [FAIL] " +:+ texture_key n +:+ " -> " +:+ label];
         fs := fs' |}
  end.

(** One iteration of the loop of [main].  [shutil.copy2] and
    [os.makedirs] are called outside the [try] around [convert]: an
    exception of theirs leaves the loop and [main]. *)
Definition process (W : World) (index_map : gmap nat string)
    (unmatched_dir : string) (st : run_state) (n : nat) : result run_state :=
  let key := texture_key n in
  match texture_dir W !! key with
  | None => Return (skipped st n)
  | Some blob =>
      let tmp_dds := scratch_of W n blob in
      match shutil_copy2 W (path_join W TEXTURE_DIR key) (src_path tmp_dds) with
      | Some e => Raise e
      | None =>
      let game_path := index_map !! n in
      match os_makedirs W (destination_dir W unmatched_dir game_path) (fs st) with
      | Some e => Raise e
      | None =>
      let '(dst_png, label) := destination W unmatched_dir key game_path in
      Return (converted st n game_path label
                (convert W tmp_dds dst_png (fs st)))
      end end
  end.

(** The loop [for n in range(N_TEXTURES)] of [main], over the
    identifiers still to visit. *)
Fixpoint main_loop (W : World) (index_map : gmap nat string)
    (unmatched_dir : string) (st : run_state) (ns : list nat)
  : result run_state :=
  match ns with
  | [] => Return st
  | n :: ns' =>
      match process W index_map unmatched_dir st n with
      | Return st' => main_loop W index_map unmatched_dir st' ns'
      | Raise e => Raise e
      end
  end.

(** The value printed on the line [Named (...)]:
    [sum(1 for n in range(N_TEXTURES) if n in index_map and n not in failed_ns)] *)
Definition named_converted (index_map : gmap nat string)
    (failed : list (nat * string * string)) : nat :=
  let failed_ns : gset nat := list_to_set ((λ f, f.1.1) <$> failed) in
  length (filter (λ n, n ∈ dom index_map ∧ n ∉ failed_ns) (seq 0 N_TEXTURES)).

(** The lines printed for one failure. *)
Definition failure_lines (f : nat * string * string) : list string :=
  let '(n, label, err) := f in
  ("  texture_" +:+ pretty n +:+ " (" +:+ label +:+ "):")
    :: ((λ line, "    " +:+ line) <$> splitlines err).

(** The lines printed after the loop. *)
Definition summary (index_map : gmap nat string) (st : run_state) : list string :=
  let named := size index_map in
  let unnamed := N_TEXTURES - named in
  [ newline +:+ str_repeat "=" 60;
    "Done.";
    "  Named (" +:+ pretty named +:+ "): "
      +:+ pretty (named_converted index_map (failed st)) +:+ " converted" ]
  ++ (if decide (unnamed = 0) then []
      else ["  Unmatched (" +:+ pretty unnamed +:+ "): saved to _unmatched/"])
  ++ [ "  Failed:          " +:+ pretty (length (failed st)) ]
  ++ (match missing st with
      | [] => []
      | _ => ["  Missing on disk: " +:+ pretty (length (missing st))]
      end)
  ++ [ "Output: " +:+ OUTPUT_DIR ]
  ++ (match failed st with
      | [] => []
      | _ =>
          [ newline +:+ "Failed (" +:+ pretty (length (failed st))
              +:+ ") — copy-paste for debugging:";
            "  FAILED_N = ["
              +:+ String.concat ", " ((λ f, pretty f.1.1) <$> failed st) +:+ "]";
            "" ]
          ++ concat (failure_lines <$> failed st)
      end).

(** The state before the loop: the counters, and the lines printed
    while the metadata is read. *)
Definition start_state (index_map : gmap nat string) (fs0 : gmap string file)
  : run_state :=
  let named := size index_map in
  let unnamed := N_TEXTURES - named in
  {| ok := 0; failed := []; missing := [];
     printed :=
       [ "Parsing ARCHIVE_METADATA...";
         "  " +:+ pretty named +:+ " named textures (of "
           +:+ pretty N_TEXTURES +:+ " total)" ]
       ++ (if decide (unnamed = 0) then []
           else ["  " +:+ pretty unnamed
                   +:+ " textures still have no path -> _unmatched/"])
       ++ [ "" ];
     fs := fs0 |}.

(** The state after the summary is printed. *)
Definition report (index_map : gmap nat string) (st : run_state) : run_state :=
  {| ok := ok st; failed := failed st; missing := missing st;
     printed := printed st ++ summary index_map st;
     fs := fs st |}.

(** [main()], run on the tree [fs0].  An exception that escapes [main]
    ends the run; what was printed before it is not kept. *)
Definition main (W : World) (fs0 : gmap string file) : result run_state :=
  index_map ← parse_texture_map (archive_meta W);
  match os_makedirs W OUTPUT_DIR fs0 with
  | Some e => Raise e
  | None =>
      let unmatched_dir := path_join W OUTPUT_DIR "_unmatched" in
      st ← main_loop W index_map unmatched_dir
             (start_state index_map fs0) (seq 0 N_TEXTURES);
      Return (report index_map st)
  end.

(** ** Building metadata files

    The writers below produce the byte layout that [parse_texture_map]
    reads; they serve the worked examples. *)

Definition byte_of_N (v : N) : byte :=
  default x00 (Byte.of_N (v mod 256)%N).

(** [struct.pack] of an unsigned little-endian value of [size] bytes. *)
Fixpoint le_encode (size : nat) (v : N) : list byte :=
  match size with
  | O => []
  | S k => byte_of_N v :: le_encode k (v / 256)%N
  end.

(** [s.encode('ascii')] *)
Definition bytes_of_string (s : string) : list byte :=
  byte_of_ascii <$> String.list_ascii_of_string s.

(** The 156 bytes up to the end of the second header field: the slot
    table offset at 0x80, the indirection table offset at 0x98. *)
Definition meta_header (table_off comp_off : N) : list byte :=
  replicate 128 x00 ++ le_encode 4 table_off
    ++ replicate 20 x00 ++ le_encode 4 comp_off.

(** A 32-byte slot: hash, string offset, string length, extra. *)
Definition slot_record (hash str_abs str_len extra : N) : list byte :=
  le_encode 8 hash ++ le_encode 8 str_abs ++ le_encode 8 str_len
    ++ le_encode 8 extra.

Definition empty_slot : list byte := slot_record 0 0 0 0.

(** The indirection table of the given slot indices. *)
Definition comp_table (slots : list N) : list byte :=
  concat (le_encode 4 <$> slots).

(** ** A simplified [ntpath]

    Exact on drive-less relative paths and on the destinations the
    examples build under [OUTPUT_DIR]; the drive and UNC rules of the
    real module are not reproduced. *)

Definition is_sep (c : ascii) : bool :=
  (nat_of_ascii c =? 47)%nat || (nat_of_ascii c =? 92)%nat.

(** [s] cut at the last character satisfying [P]: what is before it,
    that character, what is after it. *)
Fixpoint rsplit_at (P : ascii → bool) (s : string) : option (string * ascii * string) :=
  match s with
  | EmptyString => None
  | String c s' =>
      match rsplit_at P s' with
      | Some (h, d, t) => Some (String c h, d, t)
      | None => if P c then Some (EmptyString, c, s') else None
      end
  end.

Fixpoint lstrip_seps (s : string) : string :=
  match s with
  | String c s' => if is_sep c then lstrip_seps s' else s
  | EmptyString => EmptyString
  end.

Definition nt_split (p : string) : string * string :=
  match rsplit_at is_sep p with
  | None => (EmptyString, p)
  | Some (h, d, t) =>
      let head := h +:+ String d EmptyString in
      (str_or (String.rev (lstrip_seps (String.rev head))) head, t)
  end.

Definition nt_dirname (p : string) : string := (nt_split p).1.
Definition nt_basename (p : string) : string := (nt_split p).2.

Definition nt_splitext (p : string) : string * string :=
  match rsplit_at (λ c, (nat_of_ascii c =? 46)%nat) (nt_basename p) with
  | Some (String c h, d, t) =>
      (String.substring 0 (String.length p - S (String.length t)) p,
       String d t)
  | _ => (p, EmptyString)
  end.

Definition nt_join (a b : string) : string :=
  match String.rev a with
  | EmptyString => b
  | String c _ => if is_sep c then a +:+ b else a +:+ "\" +:+ b
  end.

(** [path] and the directories above it, nearest first. *)
Fixpoint nt_ancestors (fuel : nat) (path : string) : list string :=
  match fuel with
  | O => []
  | S k =>
      path :: (if decide (nt_dirname path = path) then []
               else nt_ancestors k (nt_dirname path))
  end.

(** [repr] of a path: the backslashes are doubled. *)
Definition path_repr (path : string) : string :=
  "'" +:+ replace_char (ascii_of_nat 92) "\\" path +:+ "'".

(** The level at which [os.makedirs] fails: [below] is the level under
    the one examined, if any. *)
Fixpoint makedirs_clash (fs : gmap string file) (below : option string)
    (levels : list string) : option pyexc :=
  match levels with
  | [] => None
  | p :: above =>
      if decide (is_Some (fs !! p)) then
        match below with
        | None =>
            Some (OtherError
                    ("[WinError 183] Cannot create a file when that file "
                       +:+ "already exists: " +:+ path_repr p))
        | Some child =>
            Some (FileNotFoundError
                    ("[WinError 3] The system cannot find the path specified: "
                       +:+ path_repr child))
        end
      else makedirs_clash fs (Some p) above
  end.

(** [os.makedirs(path, exist_ok=True)] over the tree: a regular file at
    [path] ([FileExistsError], here an [OtherError]) or above it is in
    the way; a directory is made or found otherwise. *)
Definition nt_makedirs (path : string) (fs : gmap string file) : option pyexc :=
  makedirs_clash fs None (nt_ancestors (S (String.length path)) path).

(** ** Worked examples: metadata files *)

(** A file that stops right after its header fields; the header places
    the indirection table at offset 4096. *)
Definition header_only_meta : list byte := meta_header 0 4096.

(** The scenario [N = 2], [indirection = [5, 1050]] over a table of 1024
    slots with which the file ends: header, indirection table, the string
    of slot 5 (at 164), one byte of padding, the table (at 172). *)
Definition scenario_meta : list byte :=
  meta_header 172 156 ++ comp_table [5; 1050]%N
    ++ bytes_of_string "d/a.dds" ++ [x00]
    ++ concat (replicate 5 empty_slot) ++ slot_record 0 164 7 0
    ++ concat (replicate 1018 empty_slot).

(** The same scenario in a file that goes on after its 1024 slots (the
    table is at 164 and ends at 32932): 27 more records of 32 bytes, the
    last of them with an offset and a length, then two strings. *)
Definition scenario_trailing_meta : list byte :=
  meta_header 164 156 ++ comp_table [5; 1050]%N
    ++ concat (replicate 5 empty_slot) ++ slot_record 0 33796 7 0
    ++ concat (replicate 1018 empty_slot)
    ++ concat (replicate 26 empty_slot) ++ slot_record 0 33803 7 0
    ++ bytes_of_string "d/a.dds" ++ bytes_of_string "x/y.dds".

(** One identifier, one slot (at 160) whose string starts at 192 and is
    declared 100 bytes long; the file ends 7 bytes after 192. *)
Definition truncated_meta : list byte :=
  meta_header 160 156 ++ comp_table [0]%N
    ++ slot_record 0 192 100 0 ++ bytes_of_string "d/a.dds".

(** One identifier, one slot whose string is declared at offset 0 with
    length 4. *)
Definition zero_offset_meta : list byte :=
  meta_header 160 156 ++ comp_table [0]%N ++ slot_record 0 0 4 0.

(** Slots for the given paths, stored back to back from [base]. *)
Fixpoint path_slots (base : N) (paths : list string) : list (list byte) :=
  match paths with
  | [] => []
  | p :: ps =>
      slot_record 0 base (N.of_nat (String.length p)) 0
        :: path_slots (base + N.of_nat (String.length p)) ps
  end.

(** A file for all [N_TEXTURES] identifiers: identifier [i] has the
    [i]-th path of the list through slot [i + 1], and the identifiers
    past the end of the list point at the empty slot 0. *)
Definition named_meta (paths : list string) : list byte :=
  let k := length paths in
  let table_off := (156 + 4 * N.of_nat N_TEXTURES)%N in
  let strings_off := (table_off + 32 * N.of_nat (S k))%N in
  meta_header table_off 156
    ++ comp_table ((N.of_nat <$> seq 1 k) ++ replicate (N_TEXTURES - k) 0%N)
    ++ empty_slot ++ concat (path_slots strings_off paths)
    ++ concat (bytes_of_string <$> paths).

(** ** The trials of a chain of backends

    What [convert] observes of each backend when every one of them is
    run in turn: its name, the exception it raised, and whether the
    destination exists once it is done. *)

Record trial := {
  trial_name : string;
  trial_raised : option pyexc;
  trial_dst_exists : bool }.

Fixpoint trials
    (backends : list (string * (scratch → string → gmap string file
                                → option pyexc * gmap string file)))
    (src : scratch) (dst : string) (fs : gmap string file)
  : list trial * gmap string file :=
  match backends with
  | [] => ([], fs)
  | (name, fn) :: rest =>
      let '(raised, fs') := fn src dst fs in
      let '(ts, fs'') := trials rest src dst fs' in
      ({| trial_name := name; trial_raised := raised;
          trial_dst_exists := bool_decide (is_Some (fs' !! dst)) |} :: ts,
       fs'')
  end.

(** The backend returned and the destination exists. *)
Definition succeeded (t : trial) : bool :=
  match trial_raised t with
  | None => trial_dst_exists t
  | Some _ => false
  end.

(** The backend declined: its dependency could not be imported. *)
Definition declined (t : trial) : bool :=
  match trial_raised t with
  | Some (ImportError _) => true
  | _ => false
  end.

(** The backend attempted the conversion and failed with an error. *)
Definition attempted_and_failed (t : trial) : bool :=
  match trial_raised t with
  | Some (ImportError _) | None => false
  | Some _ => true
  end.

(** The entry a trial leaves in the aggregated error, if any. *)
Definition error_entry (t : trial) : option string :=
  match trial_raised t with
  | Some (ImportError _) | None => None
  | Some e => Some (trial_name t +:+ ": " +:+ exc_str e)
  end.

(** ** Worked examples: worlds *)

(** A writer that succeeds: the file at [dst] becomes the PNG of [img]. *)
Definition write_png (dst : string) (img : ndarray) (fs : gmap string file)
  : option pyexc * gmap string file :=
  (None, <[dst := Png img]> fs).

(** A world over the simplified [ntpath], whose writers succeed, whose
    [texconv] executable writes no file and whose blobs can be copied. *)
Definition example_world (imports : string → option pyexc)
    (imread wopen popen : scratch → result ndarray)
    (texconv : scratch → result completed_process)
    (meta : option (list byte)) (dir : gmap string file) : World :=
  {| path_join := nt_join;
     path_dirname := nt_dirname;
     path_basename := nt_basename;
     path_splitext := nt_splitext;
     os_sep := "\";
     tmp_dir := "C:\Temp\tmp1";
     py_import := imports;
     iio_imread := imread;
     iio_imwrite := write_png;
     wand_open := wopen;
     wand_save := write_png;
     pil_open := popen;
     pil_save := write_png;
     subprocess_run := λ _ src fs, (texconv src, fs);
     archive_meta := meta;
     texture_dir := dir;
     os_makedirs := nt_makedirs;
     shutil_copy2 := λ _ _, None |}.

Definition all_installed (module : string) : option pyexc := None.

Definition none_installed (module : string) : option pyexc :=
  Some (ImportError ("No module named " +:+ module)).

(** Everything but Wand is installed. *)
Definition no_wand (module : string) : option pyexc :=
  if decide (module = "wand.image") then none_installed module else None.

(** Only Pillow is installed. *)
Definition only_pillow (module : string) : option pyexc :=
  if decide (module = "PIL") then None else none_installed module.

Definition cannot_read (msg : string) (src : scratch) : result ndarray :=
  Raise (OtherError msg).

Definition texconv_fails (src : scratch) : result completed_process :=
  Return {| proc_stdout := "ERROR: unsupported format"; proc_stderr := "" |}.

Definition texconv_silent (src : scratch) : result completed_process :=
  Return {| proc_stdout := ""; proc_stderr := "" |}.

Definition one_pixel_rgba : ndarray :=
  {| dtype := "uint8"; shape := [1; 1; 4]; buffer := [1; 2; 3; 255]%N |}.

(** A 1 x 1 image of two channels. *)
Definition one_pixel_two_channels : ndarray :=
  {| dtype := "uint8"; shape := [1; 1; 2]; buffer := [7; 9]%N |}.

(** A 2 x 1 image of two channels. *)
Definition two_pixels_two_channels : ndarray :=
  {| dtype := "uint8"; shape := [2; 1; 2]; buffer := [7; 9; 11; 13]%N |}.

(** A reader that decodes the blobs whose first byte is 1. *)
Definition reads_blob_1 (src : scratch) : result ndarray :=
  match src_file src with
  | Raw (b :: _) =>
      if (Byte.to_N b =? 1)%N then Return one_pixel_rgba
      else Raise (OtherError "unsupported DDS format")
  | _ => Raise (OtherError "unsupported DDS format")
  end.

Definition scratch_7 : scratch :=
  {| src_path := "C:\Temp\tmp1\texture_7.dds"; src_file := Raw [x00] |}.

Definition unmatched_7 : string := "D:\mio\textures_final\_unmatched\texture_7.png".

(** All four backends attempt the conversion and fail. *)
Definition failing_world : World :=
  example_world all_installed
    (cannot_read "unsupported DDS format")
    (cannot_read "no decode delegate for this image format")
    (cannot_read "cannot identify image file")
    texconv_fails None ∅.

(** No library is installed and [texconv] writes nothing. *)
Definition texconv_only_world : World :=
  example_world none_installed
    (cannot_read "") (cannot_read "") (cannot_read "")
    texconv_silent None ∅.

(** Only Pillow is installed, and it opens the blob as an image of two
    channels. *)
Definition pillow_world : World :=
  example_world only_pillow
    (cannot_read "") (cannot_read "")
    (λ _, Return one_pixel_two_channels)
    texconv_fails None ∅.

(** imageio is installed and decodes the blob as an image of two
    channels. *)
Definition imageio_world : World :=
  example_world all_installed
    (λ _, Return two_pixels_two_channels)
    (cannot_read "") (cannot_read "")
    texconv_fails None ∅.

(** Identifier 0 has a path and every blob is absent. *)
Definition missing_world : World :=
  example_world all_installed
    reads_blob_1 (cannot_read "") (cannot_read "")
    texconv_fails (Some (named_meta ["d/a.dds"])) ∅.

(** Identifiers 0 and 1 have the paths [d/a.dds] and [d/texture_0.dds];
    their blobs are present, the others absent.  Blob 1 is decoded by
    imageio; no backend converts blob 0. *)
Definition rerun_world : World :=
  example_world no_wand
    reads_blob_1 (cannot_read "") (cannot_read "cannot identify image file")
    texconv_fails
    (Some (named_meta ["d/a.dds"; "d/texture_0.dds"]))
    {[ "texture_0" := Raw [x00]; "texture_1" := Raw [x01] ]}.

(** Blob 3 is absent, blob 4 is present and decoded by imageio. *)
Definition gap_world : World :=
  example_world all_installed
    reads_blob_1 (cannot_read "") (cannot_read "")
    texconv_fails (Some (named_meta [])) {[ "texture_4" := Raw [x01] ]}.

(** Identifier 0 has the path [d/a.dds] and its blob is there; all four
    backends attempt its conversion and fail. *)
Definition failing_run_world : World :=
  example_world all_installed
    (cannot_read "unsupported DDS format")
    (cannot_read "no decode delegate for this image format")
    (cannot_read "cannot identify image file")
    texconv_fails (Some (named_meta ["d/a.dds"])) {[ "texture_0" := Raw [x00] ]}.

(** ** Proof by evaluation *)

(** Closes a closed goal, a conjunction of equations and comparisons
    between values, by evaluating both sides. *)
Ltac by_evaluation :=
  vm_compute; repeat split;
  solve [ reflexivity | discriminate | intro; discriminate
        | eexists; reflexivity ].

(** ** Vocabulary of the further properties *)

(** The bytes that [decode('ascii')] keeps. *)
Definition is_ascii_byte (b : byte) : Prop := (Byte.to_N b < 128)%N.

(** A text printed on one line: ASCII characters, none of them a line
    boundary of [str.splitlines]. *)
Fixpoint one_line (s : string) : bool :=
  match s with
  | EmptyString => true
  | String c s' =>
      (nat_of_ascii c <? 128)%nat && negb (is_linebreak c) && one_line s'
  end.

(** The identifiers of the failure records, in the order of the records. *)
Definition failed_ids (failed : list (nat * string * string)) : list nat :=
  (λ f, f.1.1) <$> failed.



(** Identifier 0 has the path [x.dds], identifier 1 the path
    [x.png/y.dds]; both blobs are there and imageio decodes them. *)
Definition clash_world : World :=
  example_world all_installed
    reads_blob_1 (cannot_read "") (cannot_read "")
    texconv_fails
    (Some (named_meta ["x.dds"; "x.png/y.dds"]))
    {[ "texture_0" := Raw [x01]; "texture_1" := Raw [x01] ]}.

(** * Properties *)

(** ** Reading integers *)

Lemma unpack_from_inside (size : nat) (data : list byte) (offset : N) :
  (offset + N.of_nat size ≤ N.of_nat (length data))%N →
  unpack_from size data offset
  = Return (le_decode (take size (drop (N.to_nat offset) data))).
Proof.
  intros Hfit. unfold unpack_from.
  by rewrite (proj2 (N.leb_le _ _) Hfit).
Qed.

Lemma unpack_from_outside (size : nat) (data : list byte) (offset : N) :
  (N.of_nat (length data) < offset + N.of_nat size)%N →
  unpack_from size data offset
  = Raise (StructError (buffer_too_small size offset (length data))).
Proof.
  intros Hout. unfold unpack_from.
  by rewrite (proj2 (N.leb_gt _ _) Hout).
Qed.

Lemma unpack_from_Return (size : nat) (data : list byte) (offset v : N) :
  unpack_from size data offset = Return v →
  (offset + N.of_nat size ≤ N.of_nat (length data))%N.
Proof.
  unfold unpack_from.
  destruct (offset + N.of_nat size <=? N.of_nat (length data))%N eqn:E; [|done].
  intros _. by apply N.leb_le.
Qed.

Lemma unpack_from_Raise (size : nat) (data : list byte) (offset : N) (e : pyexc) :
  unpack_from size data offset = Raise e →
  (∃ msg, e = StructError msg)
  ∧ (N.of_nat (length data) < offset + N.of_nat size)%N.
Proof.
  unfold unpack_from.
  destruct (offset + N.of_nat size <=? N.of_nat (length data))%N eqn:E; [done|].
  intros [= <-]. split; [by eexists|]. by apply N.leb_gt.
Qed.

(** ** One identifier *)

(** Once the indirection entry is read, the rest of the loop body cannot
    raise: the guard on the slot record covers both 64-bit reads. *)
Lemma parse_entry_slot (data : list byte) (table_off comp_off slot : N) (n : nat) :
  unpack_I data (comp_off + N.of_nat n * 4)%N = Return slot →
  parse_entry data table_off comp_off n =
    let off := (table_off + slot * 32)%N in
    if (N.of_nat (length data) <? off + 32)%N then Return None
    else
      let str_abs := le_decode (take 8 (drop (N.to_nat (off + 8)) data)) in
      let str_len := le_decode (take 8 (drop (N.to_nat (off + 16)) data)) in
      if (0 <? str_len)%N && (0 <? str_abs)%N
         && (str_abs <? N.of_nat (length data))%N
      then Return (Some (decode_ascii_replace
                           (bytes_slice data str_abs (str_abs + str_len))))
      else Return None.
Proof.
  intros Hslot. unfold parse_entry. rewrite Hslot. cbn [mbind result_bind].
  destruct (N.of_nat (length data) <? table_off + slot * 32 + 32)%N eqn:Hguard;
    [done|].
  apply N.ltb_ge in Hguard.
  unfold unpack_Q. rewrite !unpack_from_inside by lia. done.
Qed.

Lemma parse_entry_raises (data : list byte) (table_off comp_off : N) (n : nat) :
  (N.of_nat (length data) < comp_off + N.of_nat n * 4 + 4)%N →
  parse_entry data table_off comp_off n
  = Raise (StructError
             (buffer_too_small 4 (comp_off + N.of_nat n * 4) (length data))).
Proof.
  intros Hout. unfold parse_entry, unpack_I.
  rewrite unpack_from_outside by lia. done.
Qed.

Lemma parse_entry_returns (data : list byte) (table_off comp_off : N) (n : nat) :
  (comp_off + N.of_nat n * 4 + 4 ≤ N.of_nat (length data))%N →
  ∃ o, parse_entry data table_off comp_off n = Return o.
Proof.
  intros Hfit.
  rewrite (parse_entry_slot data table_off comp_off
             (le_decode (take 4 (drop (N.to_nat (comp_off + N.of_nat n * 4)) data)))).
  - cbv zeta. repeat case_match; eauto.
  - unfold unpack_I. by rewrite unpack_from_inside by lia.
Qed.

Lemma parse_entry_Raise (data : list byte) (table_off comp_off : N) (n : nat)
    (e : pyexc) :
  parse_entry data table_off comp_off n = Raise e →
  (∃ msg, e = StructError msg)
  ∧ (N.of_nat (length data) < comp_off + N.of_nat n * 4 + 4)%N.
Proof.
  intros Hraise.
  destruct (decide (comp_off + N.of_nat n * 4 + 4 ≤ N.of_nat (length data))%N)
    as [Hfit|Hout].
  - destruct (parse_entry_returns data table_off comp_off n Hfit) as [o Ho].
    congruence.
  - rewrite parse_entry_raises in Hraise by lia.
    injection Hraise as <-. split; [by eexists|lia].
Qed.

(** ** The loop *)

(** What the map holds after the loop: the entry of each visited
    identifier that has one, the earlier content elsewhere. *)
Lemma parse_loop_lookup (data : list byte) (table_off comp_off : N)
    (ns : list nat) (m0 m : gmap nat string) (n : nat) :
  parse_loop data table_off comp_off ns m0 = Return m →
  NoDup ns →
  m !! n =
    if decide (n ∈ ns)
    then match parse_entry data table_off comp_off n with
         | Return (Some path) => Some path
         | _ => m0 !! n
         end
    else m0 !! n.
Proof.
  revert m0. induction ns as [|k ns IH]; intros m0 Hloop Hnd.
  - cbn in Hloop. injection Hloop as <-.
    by rewrite decide_False by apply not_elem_of_nil.
  - apply NoDup_cons in Hnd as [Hk Hnd]. cbn [parse_loop] in Hloop.
    destruct (parse_entry data table_off comp_off k) as [[path|]|e] eqn:Hk_entry;
      [| |done].
    + rewrite (IH _ Hloop Hnd).
      destruct (decide (n = k)) as [->|Hne].
      * rewrite decide_False by done.
        rewrite decide_True by (apply elem_of_cons; auto).
        by rewrite Hk_entry, lookup_insert_eq.
      * rewrite lookup_insert_ne by done.
        destruct (decide (n ∈ ns)).
        -- by rewrite decide_True by (apply elem_of_cons; auto).
        -- by rewrite decide_False by (rewrite elem_of_cons; intuition).
    + rewrite (IH _ Hloop Hnd).
      destruct (decide (n = k)) as [->|Hne].
      * rewrite decide_False by done.
        rewrite decide_True by (apply elem_of_cons; auto).
        by rewrite Hk_entry.
      * destruct (decide (n ∈ ns)).
        -- by rewrite decide_True by (apply elem_of_cons; auto).
        -- by rewrite decide_False by (rewrite elem_of_cons; intuition).
Qed.

Lemma parse_loop_returns (data : list byte) (table_off comp_off : N)
    (ns : list nat) (m0 : gmap nat string) :
  (∀ n, n ∈ ns → (comp_off + N.of_nat n * 4 + 4 ≤ N.of_nat (length data))%N) →
  ∃ m, parse_loop data table_off comp_off ns m0 = Return m.
Proof.
  revert m0. induction ns as [|k ns IH]; intros m0 Hfit; [by eexists|].
  cbn [parse_loop].
  destruct (parse_entry_returns data table_off comp_off k) as [o ->];
    [apply Hfit; set_solver|].
  destruct o; apply IH; intros; apply Hfit; set_solver.
Qed.

Lemma parse_loop_raises (data : list byte) (table_off comp_off : N)
    (ns : list nat) (m0 : gmap nat string) (n : nat) :
  n ∈ ns →
  (N.of_nat (length data) < comp_off + N.of_nat n * 4 + 4)%N →
  ∃ msg, parse_loop data table_off comp_off ns m0 = Raise (StructError msg).
Proof.
  revert m0. induction ns as [|k ns IH]; intros m0 Hin Hout;
    [by apply elem_of_nil in Hin|].
  cbn [parse_loop].
  destruct (parse_entry data table_off comp_off k) as [[path|]|e] eqn:Hk.
  - apply IH; [|done]. apply elem_of_cons in Hin as [->|]; [|done].
    rewrite parse_entry_raises in Hk by done. done.
  - apply IH; [|done]. apply elem_of_cons in Hin as [->|]; [|done].
    rewrite parse_entry_raises in Hk by done. done.
  - apply parse_entry_Raise in Hk as [[msg ->] _]. by eexists.
Qed.

(** The map of a completed parse holds, for each identifier, what the
    loop body found for it. *)
Lemma parse_texture_map_n_lookup (n_textures : nat) (data : list byte)
    (index_map : gmap nat string) (table_off comp_off : N) (n : nat) :
  parse_texture_map_n n_textures data = Return index_map →
  unpack_I data 128%N = Return table_off →
  unpack_I data 152%N = Return comp_off →
  n < n_textures →
  parse_entry data table_off comp_off n = Return (index_map !! n).
Proof.
  intros Hparse Ht Hc Hn. unfold parse_texture_map_n in Hparse.
  rewrite Ht, Hc in Hparse. cbn [mbind result_bind] in Hparse.
  rewrite (parse_loop_lookup _ _ _ _ _ _ n Hparse (NoDup_seq _ _)).
  rewrite decide_True by (apply elem_of_seq; lia).
  destruct (parse_entry data table_off comp_off n) as [[path|]|e] eqn:Hentry;
    [done|by rewrite lookup_empty|].
  apply parse_entry_Raise in Hentry as [_ Hout].
  destruct (parse_loop_raises data table_off comp_off (seq 0 n_textures) ∅ n)
    as [msg Hmsg]; [apply elem_of_seq; lia|done|].
  congruence.
Qed.

(** [parse_texture_map] returns a map, and raises nothing, as soon as
    the header fields and the whole indirection table lie inside the
    file, whatever the slots and the strings are. *)
Lemma parse_texture_map_n_returns (n_textures : nat) (data : list byte)
    (comp_off : N) :
  (156 ≤ N.of_nat (length data))%N →
  unpack_I data 152%N = Return comp_off →
  (comp_off + N.of_nat n_textures * 4 ≤ N.of_nat (length data))%N →
  ∃ index_map, parse_texture_map_n n_textures data = Return index_map.
Proof.
  intros Hhdr Hc Hfit. unfold parse_texture_map_n.
  assert (∃ table_off, unpack_I data 128%N = Return table_off) as [table_off Ht].
  { unfold unpack_I. rewrite unpack_from_inside by lia. by eexists. }
  rewrite Ht, Hc. cbn [mbind result_bind].
  apply parse_loop_returns. intros n Hn. apply elem_of_seq in Hn. lia.
Qed.

(** [parse_texture_map] raises [struct.error] as soon as one entry of
    the indirection table does not lie inside the file. *)
Lemma parse_texture_map_n_raises (n_textures : nat) (data : list byte)
    (table_off comp_off : N) (n : nat) :
  unpack_I data 128%N = Return table_off →
  unpack_I data 152%N = Return comp_off →
  n < n_textures →
  (N.of_nat (length data) < comp_off + N.of_nat n * 4 + 4)%N →
  ∃ msg, parse_texture_map_n n_textures data = Raise (StructError msg).
Proof.
  intros Ht Hc Hn Hout. unfold parse_texture_map_n.
  rewrite Ht, Hc. cbn [mbind result_bind].
  apply (parse_loop_raises _ _ _ _ _ n); [|done].
  apply elem_of_seq. lia.
Qed.

Lemma parse_texture_map_n_returns_witness :
  ∃ index_map, parse_texture_map_n 2 scenario_meta = Return index_map.
Proof.
  apply (parse_texture_map_n_returns 2 scenario_meta 156%N); by_evaluation.
Defined.

Lemma parse_texture_map_n_raises_witness :
  ∃ msg, parse_texture_map_n N_TEXTURES header_only_meta
         = Raise (StructError msg).
Proof.
  apply (parse_texture_map_n_raises N_TEXTURES header_only_meta 0%N 4096%N 0);
    [by_evaluation|by_evaluation|unfold N_TEXTURES; lia|by_evaluation].
Defined.

(** The slice that is decoded stops at the end of the file. *)
Lemma bytes_slice_clamped (data : list byte) (start len : N) :
  bytes_slice data start (start + len)
  = take (N.to_nat (N.min len (N.of_nat (length data) - start)))
         (drop (N.to_nat start) data).
Proof.
  unfold bytes_slice.
  replace (N.to_nat (start + len) - N.to_nat start) with (N.to_nat len) by lia.
  destruct (decide (len ≤ N.of_nat (length data) - start)%N) as [Hle|Hgt].
  - by rewrite N.min_l by done.
  - rewrite N.min_r by lia.
    rewrite !take_ge; [done| |]; rewrite length_drop; lia.
Qed.

(** ** Path resolution: the claims *)

(** C1 (the code departs from the claim).  The file [header_only_meta]
    holds both header fields, and its header places the indirection table
    at 4096, past the 156 bytes of the file: the read of the indirection
    entry of identifier 0 raises [struct.error], and it ends
    [parse_texture_map]. *)
Theorem C1_indirection_read_raises :
  N.of_nat (length header_only_meta) = 156%N
  ∧ unpack_I header_only_meta 128%N = Return 0%N
  ∧ unpack_I header_only_meta 152%N = Return 4096%N
  ∧ parse_entry header_only_meta 0 4096 0
    = Raise (StructError
        ("unpack_from requires a buffer of at least 4100 bytes for "
           +:+ "unpacking 4 bytes at offset 4096 (actual buffer size is 156)"))
  ∧ parse_texture_map (Some header_only_meta)
    = Raise (StructError
        ("unpack_from requires a buffer of at least 4100 bytes for "
           +:+ "unpacking 4 bytes at offset 4096 (actual buffer size is 156)")).
Proof. by_evaluation. Qed.

(** C2 as stated fails: in [scenario_trailing_meta] the table of 1024
    slots spans the bytes 164 to 32932, the indirection entries are 5 and
    1050, and identifier 1 is not left unmapped: the 32 bytes at
    164 + 1050 * 32, which lie past the table and inside the file, are
    read as its slot. *)
Lemma C2_slot_past_table_is_read :
  unpack_I scenario_trailing_meta 128%N = Return 164%N
  ∧ unpack_I scenario_trailing_meta 152%N = Return 156%N
  ∧ unpack_I scenario_trailing_meta (156 + 0 * 4)%N = Return 5%N
  ∧ unpack_I scenario_trailing_meta (156 + 1 * 4)%N = Return 1050%N
  ∧ (164 + 1024 * 32 < 164 + 1050 * 32)%N
  ∧ (164 + 1050 * 32 + 32 ≤ N.of_nat (length scenario_trailing_meta))%N
  ∧ parse_texture_map_n 2 scenario_trailing_meta
    = Return {[ 0 := "d/a.dds"; 1 := "x/y.dds" ]}.
Proof. by_evaluation. Qed.

(** C2, amended.  The slot record of identifier [n], the 32 bytes at
    [table_off + 32 * indirection[n]], is checked against the length of
    the file before it is read, and a record that would end past the
    file leaves [n] unmapped, as an empty slot would.  In the scenario
    of a file that ends with its 1024 slots, identifier 0 resolves
    through slot 5 and identifier 1, sent to slot 1050, is unmapped. *)
Theorem C2_slot_checked_against_file_length :
  (∀ (n_textures : nat) (data : list byte) (index_map : gmap nat string)
     (table_off comp_off slot : N) (n : nat),
     parse_texture_map_n n_textures data = Return index_map →
     unpack_I data 128%N = Return table_off →
     unpack_I data 152%N = Return comp_off →
     n < n_textures →
     unpack_I data (comp_off + N.of_nat n * 4)%N = Return slot →
     (N.of_nat (length data) < table_off + slot * 32 + 32)%N →
     index_map !! n = None)
  ∧ (N.of_nat (length scenario_meta) = 172 + 1024 * 32)%N
  ∧ parse_texture_map_n 2 scenario_meta = Return {[ 0 := "d/a.dds" ]}.
Proof.
  split; [|by_evaluation].
  intros n_textures data index_map table_off comp_off slot n
    Hparse Ht Hc Hn Hslot Hout.
  pose proof (parse_texture_map_n_lookup _ _ _ _ _ _ Hparse Ht Hc Hn) as Hentry.
  rewrite (parse_entry_slot _ _ _ _ _ Hslot) in Hentry. cbv zeta in Hentry.
  rewrite (proj2 (N.ltb_lt _ _) Hout) in Hentry. congruence.
Qed.

Lemma C2_slot_checked_against_file_length_witness :
  ∃ index_map : gmap nat string,
    parse_texture_map_n 2 scenario_meta = Return index_map
    ∧ index_map !! 1 = None.
Proof.
  exists {[ 0 := "d/a.dds" ]}.
  assert (parse_texture_map_n 2 scenario_meta = Return {[ 0 := "d/a.dds" ]})
    as Hparse by by_evaluation.
  split; [exact Hparse|].
  apply (proj1 C2_slot_checked_against_file_length
           2 scenario_meta _ 172%N 156%N 1050%N 1 Hparse);
    [by_evaluation|by_evaluation|lia|by_evaluation|by_evaluation].
Defined.

(** C3 as stated fails in both directions.  In [truncated_meta] the slot
    is inside the file, its string starts at 192 and is declared 100
    bytes long, past the 199 bytes of the file, and identifier 0 is
    mapped, to the 7 bytes that are there.  In [zero_offset_meta] the
    string is declared at offset 0 with length 4, inside the file, and
    identifier 0 is left unmapped. *)
Lemma C3_range_past_file_is_mapped :
  (N.of_nat (length truncated_meta) = 199)%N
  ∧ unpack_Q truncated_meta (160 + 0 * 32 + 8)%N = Return 192%N
  ∧ unpack_Q truncated_meta (160 + 0 * 32 + 16)%N = Return 100%N
  ∧ parse_texture_map_n 1 truncated_meta = Return {[ 0 := "d/a.dds" ]}
  ∧ (N.of_nat (length zero_offset_meta) = 192)%N
  ∧ unpack_Q zero_offset_meta (160 + 0 * 32 + 8)%N = Return 0%N
  ∧ unpack_Q zero_offset_meta (160 + 0 * 32 + 16)%N = Return 4%N
  ∧ parse_texture_map_n 1 zero_offset_meta = Return ∅.
Proof. by_evaluation. Qed.

(** C3, amended.  For an identifier [n] whose slot record lies within
    the file, [n] is mapped exactly when [string_length > 0] and
    [0 < string_abs_offset < file length]; the path is then the decoding,
    with replacement, of the bytes from [string_abs_offset] up to
    [string_abs_offset + string_length] or the end of the file,
    whichever comes first.  In every other case [n] is unmapped. *)
Theorem C3_mapped_iff_offset_inside_file
    (n_textures : nat) (data : list byte) (index_map : gmap nat string)
    (table_off comp_off slot str_abs str_len : N) (n : nat) :
  parse_texture_map_n n_textures data = Return index_map →
  unpack_I data 128%N = Return table_off →
  unpack_I data 152%N = Return comp_off →
  n < n_textures →
  unpack_I data (comp_off + N.of_nat n * 4)%N = Return slot →
  (table_off + slot * 32 + 32 ≤ N.of_nat (length data))%N →
  unpack_Q data (table_off + slot * 32 + 8)%N = Return str_abs →
  unpack_Q data (table_off + slot * 32 + 16)%N = Return str_len →
  index_map !! n =
    if decide (0 < str_len ∧ 0 < str_abs < N.of_nat (length data))%N
    then Some (decode_ascii_replace
                 (take (N.to_nat (N.min str_len (N.of_nat (length data) - str_abs)))
                       (drop (N.to_nat str_abs) data)))
    else None.
Proof.
  intros Hparse Ht Hc Hn Hslot Hfit Habs Hlen.
  pose proof (parse_texture_map_n_lookup _ _ _ _ _ _ Hparse Ht Hc Hn) as Hentry.
  rewrite (parse_entry_slot _ _ _ _ _ Hslot) in Hentry. cbv zeta in Hentry.
  rewrite (proj2 (N.ltb_ge _ _) Hfit) in Hentry.
  unfold unpack_Q in Habs, Hlen.
  rewrite unpack_from_inside in Habs, Hlen by lia.
  injection Habs as Habs. injection Hlen as Hlen. rewrite Habs, Hlen in Hentry.
  rewrite bytes_slice_clamped in Hentry.
  case_decide as Hcond.
  - destruct Hcond as (H1 & H2 & H3).
    rewrite (proj2 (N.ltb_lt _ _) H1), (proj2 (N.ltb_lt _ _) H2),
      (proj2 (N.ltb_lt _ _) H3) in Hentry.
    cbn [andb] in Hentry. congruence.
  - destruct (0 <? str_len)%N eqn:E1; destruct (0 <? str_abs)%N eqn:E2;
      destruct (str_abs <? N.of_nat (length data))%N eqn:E3;
      cbn [andb] in Hentry; try congruence.
    apply N.ltb_lt in E1, E2, E3. lia.
Qed.

Lemma C3_mapped_iff_offset_inside_file_witness :
  ∃ index_map : gmap nat string,
    parse_texture_map_n 1 truncated_meta = Return index_map
    ∧ index_map !! 0 =
        Some (decode_ascii_replace (take 7 (drop 192 truncated_meta))).
Proof.
  exists {[ 0 := "d/a.dds" ]}.
  assert (parse_texture_map_n 1 truncated_meta = Return {[ 0 := "d/a.dds" ]})
    as Hparse by by_evaluation.
  split; [exact Hparse|].
  apply (C3_mapped_iff_offset_inside_file
           1 truncated_meta _ 160%N 156%N 0%N 192%N 100%N 0 Hparse);
    [by_evaluation|by_evaluation|lia|by_evaluation|by_evaluation
    |by_evaluation|by_evaluation].
Defined.

(** ** The backend chain *)

Section chain.
Context (src : scratch) (dst : string).

Local Abbreviation backend_list :=
  (list (string * (scratch → string → gmap string file
                   → option pyexc * gmap string file))).

(** While no backend succeeds the loop goes through all of them, and
    the errors it gathers are the entries of the trials, in order. *)
Lemma convert_loop_no_success (backends : backend_list)
    (errors : list string) (fs : gmap string file) :
  Forall (λ t, succeeded t = false) (trials backends src dst fs).1 →
  convert_loop backends errors src dst fs
  = (Raise (RuntimeError
             (all_failed
                (errors ++ omap error_entry (trials backends src dst fs).1))),
     (trials backends src dst fs).2).
Proof.
  revert errors fs.
  induction backends as [|[name fn] rest IH]; intros errors fs Hnone.
  - cbn. by rewrite app_nil_r.
  - cbn [convert_loop trials] in *.
    destruct (fn src dst fs) as [raised fs'] eqn:Hfn.
    destruct (trials rest src dst fs') as [ts fs''] eqn:Hts.
    cbn [fst snd] in *.
    apply Forall_cons in Hnone as [Hhead Hrest].
    specialize (IH) with (fs := fs'). rewrite Hts in IH. cbn [fst snd] in IH.
    unfold succeeded in Hhead. cbn in Hhead.
    destruct raised as [e|].
    + destruct e; cbn [omap error_entry trial_raised trial_name];
        rewrite IH by done; try done;
        cbn [omap list_omap error_entry trial_raised trial_name];
        by rewrite <- app_assoc.
    + apply bool_decide_eq_false in Hhead.
      rewrite decide_False by done. by rewrite IH.
Qed.

(** The loop stops at the first backend that returns while the
    destination exists: what follows it in the list plays no part. *)
Lemma convert_loop_first_success (pre post : backend_list) (name : string)
    (fn : scratch → string → gmap string file
          → option pyexc * gmap string file)
    (errors : list string) (fs fs2 : gmap string file) :
  Forall (λ t, succeeded t = false) (trials pre src dst fs).1 →
  fn src dst (trials pre src dst fs).2 = (None, fs2) →
  is_Some (fs2 !! dst) →
  convert_loop (pre ++ (name, fn) :: post) errors src dst fs
  = (Return name, fs2).
Proof.
  revert errors fs.
  induction pre as [|[name' fn'] pre IH]; intros errors fs Hnone Hfn Hdst.
  - cbn in *. rewrite Hfn. by rewrite decide_True.
  - cbn [app convert_loop trials] in *.
    destruct (fn' src dst fs) as [raised fs'] eqn:Hfn'.
    destruct (trials pre src dst fs') as [ts fs''] eqn:Hts.
    cbn [fst snd] in *.
    apply Forall_cons in Hnone as [Hhead Hrest].
    specialize (IH) with (fs := fs'). rewrite Hts in IH. cbn [fst snd] in IH.
    unfold succeeded in Hhead. cbn in Hhead.
    destruct raised as [e|].
    + destruct e; by apply IH.
    + apply bool_decide_eq_false in Hhead.
      rewrite decide_False by done. by apply IH.
Qed.

(** A name is returned only in that way. *)
Lemma convert_loop_Return (backends : backend_list) (errors : list string)
    (fs fs2 : gmap string file) (name : string) :
  convert_loop backends errors src dst fs = (Return name, fs2) →
  ∃ (pre : backend_list) fn (post : backend_list),
    backends = (pre ++ (name, fn) :: post)%list
    ∧ Forall (λ t, succeeded t = false) (trials pre src dst fs).1
    ∧ fn src dst (trials pre src dst fs).2 = (None, fs2)
    ∧ is_Some (fs2 !! dst).
Proof.
  revert errors fs.
  induction backends as [|[name' fn'] rest IH]; intros errors fs Hret;
    [done|].
  cbn [convert_loop] in Hret.
  destruct (fn' src dst fs) as [raised fs'] eqn:Hfn'.
  assert (∀ errors',
    convert_loop rest errors' src dst fs' = (Return name, fs2) →
    succeeded {| trial_name := name'; trial_raised := raised;
                 trial_dst_exists := bool_decide (is_Some (fs' !! dst)) |}
      = false →
    ∃ (pre : backend_list) fn (post : backend_list),
      (name', fn') :: rest = (pre ++ (name, fn) :: post)%list
      ∧ Forall (λ t, succeeded t = false)
          (trials pre src dst fs).1
      ∧ fn src dst (trials pre src dst fs).2 = (None, fs2)
      ∧ is_Some (fs2 !! dst)) as Hlater.
  { intros errors' Hrest Hhead.
    destruct (IH _ _ Hrest) as (pre & fn & post & -> & Hnone & Hfn & Hdst).
    exists ((name', fn') :: pre), fn, post.
    cbn [app trials]. rewrite Hfn'.
    destruct (trials pre src dst fs') as [ts fs''] eqn:Hts.
    cbn [fst snd] in *. split_and!; [done| |done|done].
    by apply Forall_cons. }
  destruct raised as [e|].
  - destruct e; by eapply Hlater.
  - destruct (decide (is_Some (fs' !! dst))) as [Hex|Hnex].
    + injection Hret as <- <-.
      exists [], fn', rest. cbn. by split_and!.
    + eapply Hlater; [done|]. unfold succeeded. cbn.
      by apply bool_decide_eq_false.
Qed.

Lemma length_omap_error_entry (ts : list trial) :
  (length (omap error_entry ts) ≤ length ts)%nat.
Proof.
  induction ts as [|t ts IH]; [done|]. cbn.
  destruct (error_entry t); cbn; lia.
Qed.

Lemma omap_error_entry_quiet (ts : list trial) :
  Forall (λ t, attempted_and_failed t = false) ts →
  omap error_entry ts = [].
Proof.
  induction 1 as [|t ts Ht _ IH]; [done|]. cbn.
  unfold attempted_and_failed in Ht. unfold error_entry.
  destruct (trial_raised t) as [[]|]; done.
Qed.

Lemma length_trials (backends : backend_list) (fs : gmap string file) :
  length (trials backends src dst fs).1 = length backends.
Proof.
  revert fs. induction backends as [|[name fn] rest IH]; intros fs; [done|].
  cbn [trials]. destruct (fn src dst fs) as [raised fs'].
  specialize (IH fs'). destruct (trials rest src dst fs') as [ts fs''].
  cbn in *. by rewrite IH.
Qed.
End chain.

(** The entries of the aggregated error are those of the trials that
    attempted and failed, in the order of the trials. *)
Lemma omap_error_entry_filter (ts : list trial) :
  omap error_entry ts
  = (λ t, trial_name t +:+ ": " +:+ from_option exc_str "" (trial_raised t))
      <$> filter (λ t, attempted_and_failed t = true) ts.
Proof.
  induction ts as [|[name raised ex] ts IH]; [done|].
  rewrite filter_cons. cbn [omap list_omap].
  unfold error_entry at 1. unfold attempted_and_failed at 1.
  cbn [trial_raised trial_name].
  destruct raised as [[]|];
    rewrite ?decide_True by done; rewrite ?decide_False by done;
    cbn; by rewrite IH.
Qed.

Lemma declined_or_failed_not_succeeded (ts : list trial) :
  Forall (λ t, declined t || attempted_and_failed t = true) ts →
  Forall (λ t, succeeded t = false) ts.
Proof.
  intros Hall. eapply Forall_impl; [exact Hall|]. intros t.
  unfold declined, attempted_and_failed, succeeded.
  by destruct (trial_raised t) as [[]|].
Qed.

(** ** The backend chain: the claims *)

(** C5 (the code departs from the claim).  In [texconv_only_world] the
    three libraries are not installed and the executable writes no file.
    The destination holds a PNG left there earlier.  The three library
    backends decline, the executable returns having written nothing, and
    [try_texconv] finds the file it expects from the executable, which
    for this destination is the destination itself: it returns, and
    [convert] returns the name [texconv] with the tree as it was,
    although no backend produced a file.  On the same input without the
    earlier file, [convert] raises the aggregated error. *)
Theorem C5_stale_destination_returned_as_success :
  (λ t, (trial_name t, declined t, succeeded t))
    <$> (trials (BACKENDS texconv_only_world) scratch_7 unmatched_7
           {[ unmatched_7 := Png one_pixel_rgba ]}).1
  = [ ("imageio", true, false); ("Wand", true, false);
      ("Pillow", true, false); ("texconv", false, true) ]
  ∧ (subprocess_run texconv_only_world
       [ TEXCONV; "-ft"; "png"; "-o"; "D:\mio\textures_final\_unmatched";
         "-y"; "-nologo"; src_path scratch_7 ]
       scratch_7 {[ unmatched_7 := Png one_pixel_rgba ]}).1
    = Return {| proc_stdout := ""; proc_stderr := "" |}
  ∧ map_to_list
      (subprocess_run texconv_only_world
         [ TEXCONV; "-ft"; "png"; "-o"; "D:\mio\textures_final\_unmatched";
           "-y"; "-nologo"; src_path scratch_7 ]
         scratch_7 {[ unmatched_7 := Png one_pixel_rgba ]}).2
    = [ (unmatched_7, Png one_pixel_rgba) ]
  ∧ (convert texconv_only_world scratch_7 unmatched_7
       {[ unmatched_7 := Png one_pixel_rgba ]}).1 = Return "texconv"
  ∧ map_to_list
      (convert texconv_only_world scratch_7 unmatched_7
         {[ unmatched_7 := Png one_pixel_rgba ]}).2
    = [ (unmatched_7, Png one_pixel_rgba) ]
  ∧ convert texconv_only_world scratch_7 unmatched_7 ∅
    = (Raise (RuntimeError
         ("All backends failed:" +:+ newline +:+ "    "
            +:+ "texconv: no output file")), ∅).
Proof. by_evaluation. Qed.

(** [convert] tries the backends in the order imageio, Wand, Pillow,
    texconv and stops at the first one that returns without raising
    while a file exists at the destination, whatever its size: the name
    of that backend is returned, with the tree as that backend left it,
    whatever the backends after it are, so none of them is invoked.  A
    name is returned in no other way. *)
Theorem convert_stops_at_first_return_with_destination :
  (∀ W : World, (BACKENDS W).*1 = ["imageio"; "Wand"; "Pillow"; "texconv"])
  ∧ (∀ (pre post : list (string * (scratch → string → gmap string file
                                   → option pyexc * gmap string file)))
       (name : string)
       (fn : scratch → string → gmap string file
             → option pyexc * gmap string file)
       (src : scratch) (dst : string) (fs fs2 : gmap string file),
       Forall (λ t, succeeded t = false) (trials pre src dst fs).1 →
       fn src dst (trials pre src dst fs).2 = (None, fs2) →
       is_Some (fs2 !! dst) →
       convert_with (pre ++ (name, fn) :: post) src dst fs = (Return name, fs2))
  ∧ (∀ (backends : list (string * (scratch → string → gmap string file
                                   → option pyexc * gmap string file)))
       (src : scratch) (dst : string) (fs fs2 : gmap string file)
       (name : string),
       convert_with backends src dst fs = (Return name, fs2) →
       ∃ (pre : list (string * (scratch → string → gmap string file
                                → option pyexc * gmap string file)))
         fn
         (post : list (string * (scratch → string → gmap string file
                                 → option pyexc * gmap string file))),
         backends = (pre ++ (name, fn) :: post)%list
         ∧ Forall (λ t, succeeded t = false) (trials pre src dst fs).1
         ∧ fn src dst (trials pre src dst fs).2 = (None, fs2)
         ∧ is_Some (fs2 !! dst)).
Proof.
  split_and!.
  - done.
  - intros. by apply convert_loop_first_success.
  - intros backends src dst fs fs2 name. apply convert_loop_Return.
Qed.

Lemma convert_stops_at_first_return_with_destination_witness :
  convert pillow_world scratch_7 "t.png" ∅
  = (Return "Pillow", {[ "t.png" := Png one_pixel_two_channels ]}).
Proof.
  apply (proj1 (proj2 convert_stops_at_first_return_with_destination)
           [ ("imageio", try_imageio pillow_world);
             ("Wand", try_wand pillow_world) ]
           [ ("texconv", try_texconv pillow_world) ]
           "Pillow" (try_pillow pillow_world) scratch_7 "t.png" ∅).
  - vm_compute. repeat constructor.
  - by_evaluation.
  - by_evaluation.
Defined.

(** C10.  A backend that returns without raising while the destination
    does not exist is skipped: the loop goes on with the next backend
    and the errors gathered so far.  So is a backend that raises
    [ImportError].  When no backend succeeds, the aggregated error holds
    one entry per backend that raised another exception, at most as many
    as there are backends, and none when every backend was skipped: four
    backends that all return without writing leave an error with no
    entry, and in [rerun_world], where Wand is not installed, the four
    configured backends leave three. *)
Theorem C10_skipped_backends_leave_no_entry :
  (∀ (name : string)
     (fn : scratch → string → gmap string file
           → option pyexc * gmap string file)
     (rest : list (string * (scratch → string → gmap string file
                             → option pyexc * gmap string file)))
     (errors : list string) (src : scratch) (dst : string)
     (fs fs' : gmap string file),
     fn src dst fs = (None, fs') → fs' !! dst = None →
     convert_loop ((name, fn) :: rest) errors src dst fs
     = convert_loop rest errors src dst fs')
  ∧ (∀ (name : string)
       (fn : scratch → string → gmap string file
             → option pyexc * gmap string file)
       (rest : list (string * (scratch → string → gmap string file
                               → option pyexc * gmap string file)))
       (errors : list string) (src : scratch) (dst : string)
       (fs fs' : gmap string file) (msg : string),
       fn src dst fs = (Some (ImportError msg), fs') →
       convert_loop ((name, fn) :: rest) errors src dst fs
       = convert_loop rest errors src dst fs')
  ∧ (∀ (backends : list (string * (scratch → string → gmap string file
                                   → option pyexc * gmap string file)))
       (src : scratch) (dst : string) (fs : gmap string file),
       Forall (λ t, succeeded t = false) (trials backends src dst fs).1 →
       ∃ entries : list string,
         convert_with backends src dst fs
         = (Raise (RuntimeError (all_failed entries)),
            (trials backends src dst fs).2)
         ∧ entries = omap error_entry (trials backends src dst fs).1
         ∧ (length entries ≤ length backends)%nat
         ∧ (Forall (λ t, attempted_and_failed t = false)
              (trials backends src dst fs).1 → entries = []))
  ∧ convert_with (replicate 4 ("quiet", λ _ _ fs, (None, fs)))
      scratch_7 unmatched_7 ∅
    = (Raise (RuntimeError (all_failed [])), ∅)
  ∧ convert rerun_world scratch_7 unmatched_7 ∅
    = (Raise (RuntimeError (all_failed
         [ "imageio: unsupported DDS format";
           "Pillow: cannot identify image file";
           "texconv: ERROR: unsupported format" ])), ∅).
Proof.
  split_and!.
  - intros name fn rest errors src dst fs fs' Hfn Hdst.
    cbn [convert_loop]. rewrite Hfn.
    rewrite decide_False; [done|]. rewrite Hdst. by intros [? ?].
  - intros name fn rest errors src dst fs fs' msg Hfn.
    cbn [convert_loop]. by rewrite Hfn.
  - intros backends src dst fs Hnone. eexists. split_and!.
    + unfold convert_with. by rewrite convert_loop_no_success.
    + done.
    + cbn [app]. etrans; [apply length_omap_error_entry|].
      by rewrite length_trials.
    + intros Hquiet. by apply omap_error_entry_quiet.
  - by_evaluation.
  - by_evaluation.
Qed.

Lemma C10_skipped_backends_leave_no_entry_witness :
  convert_loop
    [ ("imageio", try_imageio texconv_only_world);
      ("texconv", try_texconv texconv_only_world) ]
    [] scratch_7 unmatched_7 ∅
  = convert_loop [ ("texconv", try_texconv texconv_only_world) ]
      [] scratch_7 unmatched_7 ∅.
Proof.
  apply (proj1 (proj2 C10_skipped_backends_leave_no_entry)
           "imageio" (try_imageio texconv_only_world) _ [] scratch_7
           unmatched_7 ∅ ∅ "No module named imageio.v3").
  by_evaluation.
Defined.

(** ** Two-channel images *)

Lemma nth_imap {A B : Type} (f : nat → A → B) (l : list A) (i : nat)
    (d : A) (d' : B) :
  i < length l → nth i (imap f l) d' = f i (nth i l d).
Proof.
  intros Hi. rewrite !nth_lookup, list_lookup_imap.
  destruct (l !! i) as [a|] eqn:Hl; [done|].
  apply lookup_ge_None in Hl. lia.
Qed.

Lemma nth_channel (img : ndarray) (h w c p : nat) :
  shape img = [h; w; 2] → p < h * w →
  nth p (channel img c) 0%N = nth (p * 2 + c) (buffer img) 0%N.
Proof.
  intros Hshape Hp. unfold channel. rewrite Hshape. cbn [nth].
  rewrite nth_lookup, list_lookup_fmap, lookup_seq_lt by done. done.
Qed.

Lemma pixel_index_lt (h w y x : nat) : y < h → x < w → y * w + x < h * w.
Proof. nia. Qed.

Lemma rg_to_rgba_two_channels (img : ndarray) (h w : nat) :
  shape img = [h; w; 2] →
  rg_to_rgba img
  = set_channel (set_channel (np_zeros [h; w; 4] (dtype img)) 0 (channel img 0))
      1 (channel img 1).
Proof.
  intros Hshape. unfold rg_to_rgba, ndim. rewrite Hshape. cbn [nth length].
  by rewrite decide_True.
Qed.

(** The sample of channel [c] at row [y], column [x] of the padded image. *)
Lemma item3_rg_to_rgba (img : ndarray) (h w y x c : nat) :
  shape img = [h; w; 2] → y < h → x < w → c < 4 →
  item3 (rg_to_rgba img) y x c
  = if decide (c < 2) then item3 img y x c else 0%N.
Proof.
  intros Hshape Hy Hx Hc.
  rewrite (rg_to_rgba_two_channels _ _ _ Hshape).
  pose proof (pixel_index_lt _ _ _ _ Hy Hx) as Hp.
  unfold item3, set_channel, np_zeros. rewrite Hshape. cbn [shape buffer dtype nth foldr].
  assert ((y * w + x) * 4 + c < length (replicate (h * (w * (4 * 1))) 0%N))
    as Hlen by (rewrite length_replicate; lia).
  rewrite (nth_imap _ _ _ 0%N) by (by rewrite length_imap).
  rewrite (nth_imap _ _ _ 0%N) by done.
  assert (((y * w + x) * 4 + c) mod 4 = c) as ->.
  { rewrite Nat.add_comm, Nat.Div0.mod_add. by apply Nat.mod_small. }
  assert (((y * w + x) * 4 + c) / 4 = y * w + x) as ->.
  { rewrite Nat.add_comm, Nat.div_add by done.
    rewrite Nat.div_small by done. done. }
  rewrite !(nth_channel _ h w) by done.
  assert (nth ((y * w + x) * 4 + c) (replicate (h * (w * (4 * 1))) 0%N) 0%N = 0%N)
    as ->.
  { rewrite nth_lookup, lookup_replicate_2 by (rewrite length_replicate in Hlen; done).
    done. }
  destruct c as [|[|[|[|c]]]]; try lia; done.
Qed.

(** C6 as stated fails: the expansion is a step of [try_imageio] alone.
    In [pillow_world] only Pillow is installed; it opens the blob as an
    image of two channels, [convert] returns its name, and the file
    written at the destination is that image of two channels. *)
Lemma C6_pillow_writes_two_channels :
  pil_open pillow_world scratch_7 = Return one_pixel_two_channels
  ∧ shape one_pixel_two_channels = [1; 1; 2]
  ∧ (convert pillow_world scratch_7 unmatched_7 ∅).1 = Return "Pillow"
  ∧ map_to_list (convert pillow_world scratch_7 unmatched_7 ∅).2
    = [ (unmatched_7, Png one_pixel_two_channels) ].
Proof. by_evaluation. Qed.

(** C6, amended.  An image that imageio decodes as an array of shape
    (h, w, 2) is handed to the writer of [try_imageio] as an array of
    shape (h, w, 4) of the same element type, whose channels 0 and 1 are
    those of the decoded image and whose channels 2 and 3 are zero.  The
    Wand and Pillow backends hand the image to their writer as it was
    opened. *)
Theorem C6_imageio_pads_two_channels_to_four :
  (∀ (W : World) (src : scratch) (dst : string) (fs : gmap string file)
     (img : ndarray) (h w : nat),
     py_import W "imageio.v3" = None →
     py_import W "numpy" = None →
     iio_imread W src = Return img →
     shape img = [h; w; 2] →
     ∃ rgba : ndarray,
       try_imageio W src dst fs = iio_imwrite W dst rgba fs
       ∧ shape rgba = [h; w; 4]
       ∧ dtype rgba = dtype img
       ∧ length (buffer rgba) = h * w * 4
       ∧ ∀ y x : nat, y < h → x < w →
           item3 rgba y x 0 = item3 img y x 0
           ∧ item3 rgba y x 1 = item3 img y x 1
           ∧ item3 rgba y x 2 = 0%N
           ∧ item3 rgba y x 3 = 0%N)
  ∧ (∀ (W : World) (src : scratch) (dst : string) (fs : gmap string file)
       (img : ndarray),
       py_import W "wand.image" = None →
       wand_open W src = Return img →
       try_wand W src dst fs = wand_save W dst img fs)
  ∧ (∀ (W : World) (src : scratch) (dst : string) (fs : gmap string file)
       (img : ndarray),
       py_import W "PIL" = None →
       pil_open W src = Return img →
       try_pillow W src dst fs = pil_save W dst img fs).
Proof.
  split_and!.
  - intros W src dst fs img h w Himp1 Himp2 Hread Hshape.
    exists (rg_to_rgba img). split_and!.
    + unfold try_imageio. by rewrite Himp1, Himp2, Hread.
    + rewrite (rg_to_rgba_two_channels _ _ _ Hshape). done.
    + rewrite (rg_to_rgba_two_channels _ _ _ Hshape). done.
    + rewrite (rg_to_rgba_two_channels _ _ _ Hshape).
      unfold set_channel, np_zeros. cbn [buffer foldr].
      rewrite !length_imap, length_replicate. lia.
    + intros y x Hy Hx.
      rewrite !(item3_rg_to_rgba _ h w) by (done || lia).
      done.
  - intros W src dst fs img Himp Hopen. unfold try_wand. by rewrite Himp, Hopen.
  - intros W src dst fs img Himp Hopen. unfold try_pillow. by rewrite Himp, Hopen.
Qed.

Lemma C6_imageio_pads_two_channels_to_four_witness :
  ∃ rgba : ndarray,
    try_imageio imageio_world scratch_7 "t.png" ∅
    = iio_imwrite imageio_world "t.png" rgba ∅
    ∧ shape rgba = [2; 1; 4]
    ∧ dtype rgba = dtype two_pixels_two_channels
    ∧ length (buffer rgba) = 2 * 1 * 4
    ∧ ∀ y x : nat, y < 2 → x < 1 →
        item3 rgba y x 0 = item3 two_pixels_two_channels y x 0
        ∧ item3 rgba y x 1 = item3 two_pixels_two_channels y x 1
        ∧ item3 rgba y x 2 = 0%N
        ∧ item3 rgba y x 3 = 0%N.
Proof.
  apply (proj1 C6_imageio_pads_two_channels_to_four
           imageio_world scratch_7 "t.png" ∅ two_pixels_two_channels 2 1);
    reflexivity.
Defined.

(** ** The loop of [main] *)

Lemma process_missing (W : World) (index_map : gmap nat string)
    (unmatched_dir : string) (st : run_state) (n : nat) :
  texture_dir W !! texture_key n = None →
  process W index_map unmatched_dir st n = Return (skipped st n).
Proof. intros Habsent. unfold process. by rewrite Habsent. Qed.

(** The iteration of an identifier whose blob is there: the copy, the
    directory, then the conversion on the tree as it is. *)
Lemma process_present (W : World) (index_map : gmap nat string)
    (unmatched_dir : string) (st : run_state) (n : nat) (blob : file) :
  texture_dir W !! texture_key n = Some blob →
  process W index_map unmatched_dir st n =
    match shutil_copy2 W (path_join W TEXTURE_DIR (texture_key n))
            (src_path (scratch_of W n blob)) with
    | Some e => Raise e
    | None =>
        match os_makedirs W
                (destination_dir W unmatched_dir (index_map !! n)) (fs st) with
        | Some e => Raise e
        | None =>
            Return
              (converted st n (index_map !! n)
                 (destination W unmatched_dir (texture_key n) (index_map !! n)).2
                 (convert W (scratch_of W n blob)
                    (destination W unmatched_dir (texture_key n)
                       (index_map !! n)).1 (fs st)))
        end
    end.
Proof.
  intros Hblob. unfold process. rewrite Hblob.
  destruct (shutil_copy2 W _ _); [done|].
  destruct (os_makedirs W _ _); [done|].
  by destruct (destination W unmatched_dir (texture_key n) (index_map !! n)).
Qed.

(** An iteration raises only what [shutil.copy2] or [os.makedirs] raised,
    for an identifier whose blob is there. *)
Lemma process_Raise (W : World) (index_map : gmap nat string)
    (unmatched_dir : string) (st : run_state) (n : nat) (e : pyexc) :
  process W index_map unmatched_dir st n = Raise e →
  ∃ blob,
    texture_dir W !! texture_key n = Some blob
    ∧ (shutil_copy2 W (path_join W TEXTURE_DIR (texture_key n))
         (src_path (scratch_of W n blob)) = Some e
       ∨ os_makedirs W (destination_dir W unmatched_dir (index_map !! n))
           (fs st) = Some e).
Proof.
  destruct (texture_dir W !! texture_key n) as [blob|] eqn:Hblob.
  - rewrite (process_present _ _ _ _ _ _ Hblob). intros Hraise. exists blob.
    split; [done|].
    destruct (shutil_copy2 W _ _) as [e1|]; [left; congruence|].
    destruct (os_makedirs W _ _) as [e2|]; [right; congruence|done].
  - by rewrite process_missing.
Qed.

Lemma main_loop_app (W : World) (index_map : gmap nat string)
    (unmatched_dir : string) (st : run_state) (l1 l2 : list nat) :
  main_loop W index_map unmatched_dir st (l1 ++ l2) =
    match main_loop W index_map unmatched_dir st l1 with
    | Return st1 => main_loop W index_map unmatched_dir st1 l2
    | Raise e => Raise e
    end.
Proof.
  revert st. induction l1 as [|n l1 IH]; intros st; [done|].
  cbn [app main_loop].
  by destruct (process W index_map unmatched_dir st n).
Qed.

(** The state after identifier [n] is the iteration of [n] from the
    state after the identifiers before it. *)
Lemma main_loop_snoc (W : World) (index_map : gmap nat string)
    (unmatched_dir : string) (st : run_state) (n : nat) :
  main_loop W index_map unmatched_dir st (seq 0 (S n)) =
    match main_loop W index_map unmatched_dir st (seq 0 n) with
    | Return before => process W index_map unmatched_dir before n
    | Raise e => Raise e
    end.
Proof.
  rewrite seq_S, main_loop_app. cbn [Nat.add].
  destruct (main_loop W index_map unmatched_dir st (seq 0 n)); [|done].
  cbn [main_loop]. by destruct (process W index_map unmatched_dir _ n).
Qed.

(** An iteration only adds to what is recorded. *)
Lemma process_grows (W : World) (index_map : gmap nat string)
    (unmatched_dir : string) (st st' : run_state) (n : nat) :
  process W index_map unmatched_dir st n = Return st' →
  (ok st ≤ ok st')%nat
  ∧ failed st `prefix_of` failed st'
  ∧ missing st `prefix_of` missing st'
  ∧ printed st `prefix_of` printed st'.
Proof.
  destruct (texture_dir W !! texture_key n) as [blob|] eqn:Hblob.
  - rewrite (process_present _ _ _ _ _ _ Hblob).
    destruct (shutil_copy2 W _ _); [done|].
    destruct (os_makedirs W _ _); [done|].
    intros [= <-]. unfold converted.
    destruct (convert W _ _ (fs st)) as [[backend|e] fs'];
      cbn [ok failed missing printed];
      split_and!; try done; try lia; by apply prefix_app_r.
  - rewrite process_missing by done. intros [= <-]. unfold skipped.
    cbn [ok failed missing printed].
    split_and!; try done; by apply prefix_app_r.
Qed.

Lemma main_loop_grows (W : World) (index_map : gmap nat string)
    (unmatched_dir : string) (ns : list nat) (st st' : run_state) :
  main_loop W index_map unmatched_dir st ns = Return st' →
  (ok st ≤ ok st')%nat
  ∧ failed st `prefix_of` failed st'
  ∧ missing st `prefix_of` missing st'
  ∧ printed st `prefix_of` printed st'.
Proof.
  revert st. induction ns as [|n ns IH]; intros st Hloop.
  - cbn in Hloop. by injection Hloop as <-.
  - cbn [main_loop] in Hloop.
    destruct (process W index_map unmatched_dir st n) as [st1|e] eqn:Hstep;
      [|done].
    destruct (process_grows _ _ _ _ _ _ Hstep) as (H1 & H2 & H3 & H4).
    destruct (IH _ Hloop) as (H1' & H2' & H3' & H4').
    split_and!; [lia|by etrans|by etrans|by etrans].
Qed.

(** Where the loop raises. *)
Lemma main_loop_Raise (W : World) (index_map : gmap nat string)
    (unmatched_dir : string) (ns : list nat) (st : run_state) (e : pyexc) :
  main_loop W index_map unmatched_dir st ns = Raise e →
  ∃ (pre : list nat) (n : nat) (post : list nat) (before : run_state),
    ns = (pre ++ n :: post)%list
    ∧ main_loop W index_map unmatched_dir st pre = Return before
    ∧ process W index_map unmatched_dir before n = Raise e.
Proof.
  revert st. induction ns as [|n ns IH]; intros st Hloop; [done|].
  cbn [main_loop] in Hloop.
  destruct (process W index_map unmatched_dir st n) as [st1|e1] eqn:Hstep.
  - destruct (IH _ Hloop) as (pre & k & post & before & -> & Hpre & Hk).
    exists (n :: pre), k, post, before. cbn [app main_loop].
    by rewrite Hstep.
  - injection Hloop as <-. by exists [], n, ns, st.
Qed.

Lemma seq_split (len : nat) (pre : list nat) (n : nat) (post : list nat) :
  seq 0 len = (pre ++ n :: post)%list →
  pre = seq 0 n ∧ post = seq (S n) (len - S n) ∧ n < len.
Proof.
  intros Hseq.
  assert (seq 0 len !! length pre = Some n) as Hn.
  { rewrite Hseq. by rewrite list_lookup_middle. }
  apply lookup_seq in Hn as [Hn Hlt]. cbn in Hn. subst n.
  assert (take (length pre) (seq 0 len) = pre) as Htake.
  { rewrite Hseq. by rewrite take_app_length. }
  assert (drop (S (length pre)) (seq 0 len) = post) as Hdrop.
  { rewrite Hseq. rewrite cons_middle, app_assoc.
    rewrite drop_app_length'; [done|]. rewrite length_app. cbn. lia. }
  rewrite take_seq in Htake. rewrite Nat.min_l in Htake by lia.
  rewrite drop_seq in Hdrop. done.
Qed.

(** What the loop records as missing, when it returns. *)
Lemma main_loop_missing (W : World) (index_map : gmap nat string)
    (unmatched_dir : string) (ns : list nat) (st st' : run_state) :
  main_loop W index_map unmatched_dir st ns = Return st' →
  missing st'
  = (missing st ++ filter (λ n, texture_dir W !! texture_key n = None) ns)%list.
Proof.
  revert st. induction ns as [|n ns IH]; intros st Hloop.
  - cbn in Hloop. injection Hloop as <-. by rewrite app_nil_r.
  - cbn [main_loop] in Hloop. rewrite filter_cons.
    destruct (process W index_map unmatched_dir st n) as [st1|e] eqn:Hstep;
      [|done].
    rewrite (IH _ Hloop).
    destruct (texture_dir W !! texture_key n) as [blob|] eqn:Hblob.
    + rewrite decide_False by done.
      rewrite (process_present _ _ _ _ _ _ Hblob) in Hstep.
      destruct (shutil_copy2 W _ _); [done|].
      destruct (os_makedirs W _ _); [done|].
      injection Hstep as <-. unfold converted.
      by destruct (convert W _ _ (fs st)) as [[backend|e] fs'].
    + rewrite decide_True by done. rewrite process_missing in Hstep by done.
      injection Hstep as <-. cbn [skipped missing]. by rewrite <- app_assoc.
Qed.

(** [main] by cases: the parse, the output directory, the loop. *)
Lemma main_cases (W : World) (fs0 : gmap string file) :
  main W fs0 =
    match parse_texture_map (archive_meta W) with
    | Raise e => Raise e
    | Return index_map =>
        match os_makedirs W OUTPUT_DIR fs0 with
        | Some e => Raise e
        | None =>
            match main_loop W index_map (path_join W OUTPUT_DIR "_unmatched")
                    (start_state index_map fs0) (seq 0 N_TEXTURES) with
            | Raise e => Raise e
            | Return last => Return (report index_map last)
            end
        end
    end.
Proof.
  unfold main.
  destruct (parse_texture_map (archive_meta W)) as [index_map|e]; [|done].
  cbn [mbind result_bind].
  destruct (os_makedirs W OUTPUT_DIR fs0); [done|].
  by destruct (main_loop W index_map _ _ _).
Qed.

Lemma summary_failed_line (index_map : gmap nat string) (st : run_state) :
  "  Failed:          " +:+ pretty (length (failed st)) ∈ summary index_map st.
Proof.
  unfold summary.
  apply elem_of_app. right. apply elem_of_app. right.
  apply elem_of_app. left. apply list_elem_of_singleton. reflexivity.
Qed.

(** A run that returns went through the whole loop. *)
Lemma main_Return_inv (W : World) (fs0 : gmap string file) (st : run_state) :
  main W fs0 = Return st →
  ∃ (index_map : gmap nat string) (last : run_state),
    parse_texture_map (archive_meta W) = Return index_map
    ∧ os_makedirs W OUTPUT_DIR fs0 = None
    ∧ main_loop W index_map (path_join W OUTPUT_DIR "_unmatched")
        (start_state index_map fs0) (seq 0 N_TEXTURES) = Return last
    ∧ st = report index_map last.
Proof.
  rewrite main_cases. intros Hmain.
  destruct (parse_texture_map (archive_meta W)) as [index_map|e]; [|done].
  destruct (os_makedirs W OUTPUT_DIR fs0); [done|].
  destruct (main_loop W index_map _ _ _) as [last|e] eqn:Hloop; [|done].
  injection Hmain as <-. by exists index_map, last.
Qed.

(** A run that got past the parse and the output directory raises only
    what [shutil.copy2] or [os.makedirs] raised for an identifier whose
    blob is there, after the identifiers before it were dealt with. *)
Lemma main_Raise_inv (W : World) (fs0 : gmap string file)
    (index_map : gmap nat string) (e : pyexc) :
  parse_texture_map (archive_meta W) = Return index_map →
  os_makedirs W OUTPUT_DIR fs0 = None →
  main W fs0 = Raise e →
  ∃ (n : nat) (before : run_state) (blob : file),
    n < N_TEXTURES
    ∧ main_loop W index_map (path_join W OUTPUT_DIR "_unmatched")
        (start_state index_map fs0) (seq 0 n) = Return before
    ∧ process W index_map (path_join W OUTPUT_DIR "_unmatched") before n
      = Raise e
    ∧ texture_dir W !! texture_key n = Some blob
    ∧ (shutil_copy2 W (path_join W TEXTURE_DIR (texture_key n))
         (src_path (scratch_of W n blob)) = Some e
       ∨ os_makedirs W
           (destination_dir W (path_join W OUTPUT_DIR "_unmatched")
              (index_map !! n)) (fs before) = Some e).
Proof.
  intros Hparse Hmk. rewrite main_cases, Hparse, Hmk. intros Hmain.
  destruct (main_loop W index_map _ _ _) as [last|e'] eqn:Hloop; [done|].
  injection Hmain as ->.
  apply main_loop_Raise in Hloop as (pre & n & post & before & Hseq & Hpre & Hn).
  apply seq_split in Hseq as (-> & _ & Hlt).
  destruct (process_Raise _ _ _ _ _ _ Hn) as (blob & Hblob & Hcause).
  by exists n, before, blob.
Qed.

Lemma printed_report (index_map : gmap nat string) (st : run_state) :
  printed (report index_map st) = (printed st ++ summary index_map st)%list.
Proof. reflexivity. Qed.

Lemma failed_report (index_map : gmap nat string) (st : run_state) :
  failed (report index_map st) = failed st.
Proof. reflexivity. Qed.

Lemma missing_report (index_map : gmap nat string) (st : run_state) :
  missing (report index_map st) = missing st.
Proof. reflexivity. Qed.

Lemma ok_report (index_map : gmap nat string) (st : run_state) :
  ok (report index_map st) = ok st.
Proof. reflexivity. Qed.

(** Once the loop raised at an identifier, it has raised for every longer
    range of identifiers. *)
Lemma main_loop_raised (W : World) (index_map : gmap nat string)
    (unmatched_dir : string) (st before : run_state) (m k : nat) (e : pyexc) :
  main_loop W index_map unmatched_dir st (seq 0 m) = Return before →
  process W index_map unmatched_dir before m = Raise e →
  m < k →
  main_loop W index_map unmatched_dir st (seq 0 k) = Raise e.
Proof.
  intros Hbefore Hstep Hlt.
  replace k with (S m + (k - S m)) by lia.
  rewrite seq_app, main_loop_app, main_loop_snoc, Hbefore, Hstep. done.
Qed.

(** The loop from the state after identifier [n] to the end. *)
Lemma main_loop_from (W : World) (index_map : gmap nat string)
    (unmatched_dir : string) (st after last : run_state) (n len : nat) :
  main_loop W index_map unmatched_dir st (seq 0 n) = Return after →
  main_loop W index_map unmatched_dir st (seq 0 len) = Return last →
  (n ≤ len)%nat →
  main_loop W index_map unmatched_dir after (seq n (len - n)) = Return last.
Proof.
  intros Hafter Hlast Hle.
  replace len with (n + (len - n)) in Hlast at 1 by lia.
  by rewrite seq_app, main_loop_app, Hafter in Hlast.
Qed.

(** A backend that raises anything but [ImportError] leaves its entry
    and the loop goes on. *)
Lemma convert_loop_error (name : string)
    (fn : scratch → string → gmap string file → option pyexc * gmap string file)
    (rest : list (string * (scratch → string → gmap string file
                            → option pyexc * gmap string file)))
    (errors : list string) (src : scratch) (dst : string)
    (fs fs' : gmap string file) (e : pyexc) :
  fn src dst fs = (Some e, fs') →
  (∀ msg, e ≠ ImportError msg) →
  convert_loop ((name, fn) :: rest) errors src dst fs
  = convert_loop rest (errors ++ [name +:+ ": " +:+ exc_str e]) src dst fs'.
Proof.
  intros Hfn Hne. cbn [convert_loop]. rewrite Hfn.
  destruct e; [by destruct (Hne msg)|done..].
Qed.

(** The identifiers without a blob do not bear on the others: the loop
    over the identifiers that have one ends the same way. *)
Lemma main_loop_filter_present (W : World) (index_map : gmap nat string)
    (unmatched_dir : string) (ns : list nat) (st st' : run_state) :
  ok st = ok st' → failed st = failed st' → fs st = fs st' →
  match main_loop W index_map unmatched_dir st ns,
        main_loop W index_map unmatched_dir st'
          (filter (λ n, is_Some (texture_dir W !! texture_key n)) ns)
        return Prop with
  | Return a, Return b =>
      ok a = ok b ∧ failed a = failed b ∧ fs a = fs b
      ∧ missing b = missing st'
  | Raise e, Raise e' => e = e'
  | _, _ => False
  end.
Proof.
  revert st st'. induction ns as [|n ns IH]; intros st st' Hok Hfailed Hfs.
  - by cbn.
  - rewrite filter_cons. cbn [main_loop].
    destruct (texture_dir W !! texture_key n) as [blob|] eqn:Hblob.
    + rewrite decide_True by done. cbn [main_loop].
      rewrite !(process_present _ _ _ _ _ _ Hblob). rewrite <- Hfs.
      destruct (shutil_copy2 W _ _); [done|].
      destruct (os_makedirs W _ _); [done|].
      set (label := (destination W unmatched_dir (texture_key n)
                       (index_map !! n)).2).
      set (outcome := convert W _ _ (fs st)).
      specialize (IH (converted st n (index_map !! n) label outcome)
                    (converted st' n (index_map !! n) label outcome)).
      assert (missing (converted st' n (index_map !! n) label outcome)
              = missing st') as <-.
      { unfold converted. by destruct outcome as [[backend|e] fs']. }
      apply IH; unfold converted; destruct outcome as [[backend|e] fs'];
        cbn [ok failed fs]; congruence.
    + rewrite decide_False by (by intros [? ?]).
      rewrite process_missing by done.
      by apply IH.
Qed.

(** The line of every identifier recorded as missing is printed. *)
Lemma main_loop_missing_printed (W : World) (index_map : gmap nat string)
    (unmatched_dir : string) (ns : list nat) (st st' : run_state) (n : nat) :
  main_loop W index_map unmatched_dir st ns = Return st' →
  n ∈ ns → texture_dir W !! texture_key n = None →
  "  [MISSING] " +:+ texture_key n ∈ printed st'.
Proof.
  revert st. induction ns as [|k ns IH]; intros st Hloop Hin Habsent;
    [by apply elem_of_nil in Hin|].
  cbn [main_loop] in Hloop.
  destruct (process W index_map unmatched_dir st k) as [st1|e] eqn:Hstep;
    [|done].
  apply elem_of_cons in Hin as [->|Hin]; [|by eapply IH].
  rewrite process_missing in Hstep by done. injection Hstep as <-.
  destruct (main_loop_grows _ _ _ _ _ _ Hloop) as (_ & _ & _ & [k' ->]).
  apply elem_of_app. left. cbn [skipped printed].
  apply elem_of_app. right. by apply list_elem_of_singleton.
Qed.

(** ** The loop of [main]: the claims *)

(** C4.  When every backend declines (its import fails) or attempts the
    conversion and fails (it raises another exception), [convert] raises
    one [RuntimeError]: its message is the line [All backends failed:]
    followed by the entries [name: error text] of the backends that
    attempted, in the order of the trials, each on a line of its own
    after four spaces.  When the four configured backends all attempt
    and fail, the message holds their four entries, no two of them
    equal.  In a run, the iteration of an identifier for which [convert]
    raises returns: it adds exactly one record to [failed], with the
    identifier, its label and the message, and leaves [ok] and [missing]
    as they were.  If the run returns, that record is in the state it
    returns and the summary shows the length of [failed]; the run raises
    only what [shutil.copy2] or [os.makedirs] raised for a later
    identifier.  In [failing_run_world], where the four backends fail for
    identifier 0 and the other blobs are absent, the run returns with
    that one failure, the summary shows [Failed: 1] and lists the four
    entries. *)
Theorem C4_all_backends_fail_one_aggregated_error :
  (∀ (backends : list (string * (scratch → string → gmap string file
                                 → option pyexc * gmap string file)))
     (src : scratch) (dst : string) (fs : gmap string file),
     Forall (λ t, declined t || attempted_and_failed t = true)
       (trials backends src dst fs).1 →
     convert_with backends src dst fs
     = (Raise (RuntimeError
          ("All backends failed:" +:+ newline +:+ "    "
             +:+ String.concat (newline +:+ "    ")
                   ((λ t, trial_name t +:+ ": "
                            +:+ from_option exc_str "" (trial_raised t))
                      <$> filter (λ t, attempted_and_failed t = true)
                            (trials backends src dst fs).1))),
        (trials backends src dst fs).2))
  ∧ (∀ (W : World) (src : scratch) (dst : string)
       (fs fs1 fs2 fs3 fs4 : gmap string file) (e1 e2 e3 e4 : pyexc),
       try_imageio W src dst fs = (Some e1, fs1) →
       try_wand W src dst fs1 = (Some e2, fs2) →
       try_pillow W src dst fs2 = (Some e3, fs3) →
       try_texconv W src dst fs3 = (Some e4, fs4) →
       Forall (λ e, ∀ msg, e ≠ ImportError msg) [e1; e2; e3; e4] →
       convert W src dst fs
       = (Raise (RuntimeError
            ("All backends failed:" +:+ newline +:+ "    "
               +:+ String.concat (newline +:+ "    ")
                     [ "imageio: " +:+ exc_str e1; "Wand: " +:+ exc_str e2;
                       "Pillow: " +:+ exc_str e3; "texconv: " +:+ exc_str e4 ])),
          fs4)
       ∧ NoDup [ "imageio: " +:+ exc_str e1; "Wand: " +:+ exc_str e2;
                 "Pillow: " +:+ exc_str e3; "texconv: " +:+ exc_str e4 ])
  ∧ (∀ (W : World) (fs0 : gmap string file) (index_map : gmap nat string)
       (n : nat) (before : run_state) (blob : file) (e : pyexc)
       (fs' : gmap string file),
       parse_texture_map (archive_meta W) = Return index_map →
       os_makedirs W OUTPUT_DIR fs0 = None →
       n < N_TEXTURES →
       main_loop W index_map (path_join W OUTPUT_DIR "_unmatched")
         (start_state index_map fs0) (seq 0 n) = Return before →
       texture_dir W !! texture_key n = Some blob →
       shutil_copy2 W (path_join W TEXTURE_DIR (texture_key n))
         (src_path (scratch_of W n blob)) = None →
       os_makedirs W
         (destination_dir W (path_join W OUTPUT_DIR "_unmatched")
            (index_map !! n)) (fs before) = None →
       convert W (scratch_of W n blob)
         (destination W (path_join W OUTPUT_DIR "_unmatched") (texture_key n)
            (index_map !! n)).1 (fs before) = (Raise e, fs') →
       ∃ after : run_state,
         main_loop W index_map (path_join W OUTPUT_DIR "_unmatched")
           (start_state index_map fs0) (seq 0 (S n)) = Return after
         ∧ failed after
           = (failed before
                ++ [(n, (destination W (path_join W OUTPUT_DIR "_unmatched")
                           (texture_key n) (index_map !! n)).2, exc_str e)])%list
         ∧ ok after = ok before
         ∧ missing after = missing before
         ∧ fs after = fs'
         ∧ (∀ st, main W fs0 = Return st →
              failed after `prefix_of` failed st
              ∧ "  Failed:          " +:+ pretty (length (failed st))
                ∈ printed st)
         ∧ (∀ e', main W fs0 = Raise e' →
              ∃ (m : nat) (before_m : run_state) (blob_m : file),
                n < m < N_TEXTURES
                ∧ main_loop W index_map (path_join W OUTPUT_DIR "_unmatched")
                    (start_state index_map fs0) (seq 0 m) = Return before_m
                ∧ texture_dir W !! texture_key m = Some blob_m
                ∧ (shutil_copy2 W (path_join W TEXTURE_DIR (texture_key m))
                     (src_path (scratch_of W m blob_m)) = Some e'
                   ∨ os_makedirs W
                       (destination_dir W (path_join W OUTPUT_DIR "_unmatched")
                          (index_map !! m)) (fs before_m) = Some e')))
  ∧ match main failing_run_world ∅ return Prop with
    | Return st =>
        ok st = 0
        ∧ failed st
          = [ (0, "d/a.png",
               "All backends failed:" +:+ newline +:+ "    "
                 +:+ String.concat (newline +:+ "    ")
                       [ "imageio: unsupported DDS format";
                         "Wand: no decode delegate for this image format";
                         "Pillow: cannot identify image file";
                         "texconv: ERROR: unsupported format" ]) ]
        ∧ printed st !! 4 = Some "  [FAIL] texture_0 -> d/a.png"
        ∧ printed st !! 557 = Some "  Failed:          1"
        ∧ drop 563 (printed st)
          = [ "  texture_0 (d/a.png):";
              "    All backends failed:";
              "        imageio: unsupported DDS format";
              "        Wand: no decode delegate for this image format";
              "        Pillow: cannot identify image file";
              "        texconv: ERROR: unsupported format" ]
    | Raise _ => False
    end.
Proof.
  split; [|split; [|split]].
  - intros backends src dst fs Hall. unfold convert_with.
    rewrite convert_loop_no_success
      by by apply declined_or_failed_not_succeeded.
    by rewrite app_nil_l, omap_error_entry_filter.
  - intros W src dst fs fs1 fs2 fs3 fs4 e1 e2 e3 e4 H1 H2 H3 H4 Hall.
    apply Forall_cons in Hall as [Hn1 Hall]. apply Forall_cons in Hall as [Hn2 Hall].
    apply Forall_cons in Hall as [Hn3 Hall]. apply Forall_cons in Hall as [Hn4 _].
    split.
    + unfold convert, convert_with, BACKENDS.
      rewrite (convert_loop_error _ _ _ _ _ _ _ _ _ H1 Hn1).
      rewrite (convert_loop_error _ _ _ _ _ _ _ _ _ H2 Hn2).
      rewrite (convert_loop_error _ _ _ _ _ _ _ _ _ H3 Hn3).
      rewrite (convert_loop_error _ _ _ _ _ _ _ _ _ H4 Hn4).
      reflexivity.
    + repeat (apply NoDup_cons_2;
        [ cbn; rewrite ?elem_of_cons, elem_of_nil;
          intros Heq; repeat destruct Heq as [Heq|Heq];
          try discriminate Heq; done |]).
      apply NoDup_nil_2.
  - intros W fs0 index_map n before blob e fs' Hparse Hmk Hn Hbefore Hblob
      Hcopy Hdir Hconv.
    set (u := path_join W OUTPUT_DIR "_unmatched") in *.
    assert (process W index_map u before n
            = Return (converted before n (index_map !! n)
                        (destination W u (texture_key n) (index_map !! n)).2
                        (Raise e, fs'))) as Hstep.
    { by rewrite (process_present _ _ _ _ _ _ Hblob), Hcopy, Hdir, Hconv. }
    eexists. split_and!.
    + by rewrite main_loop_snoc, Hbefore, Hstep.
    + done.
    + done.
    + done.
    + done.
    + intros st (index_map' & last & Hparse' & _ & Hlast & ->)%main_Return_inv.
      assert (index_map' = index_map) as -> by congruence.
      rewrite failed_report, printed_report. split.
      * assert (main_loop W index_map u (start_state index_map fs0)
                  (seq 0 (S n))
                = Return (converted before n (index_map !! n)
                            (destination W u (texture_key n) (index_map !! n)).2
                            (Raise e, fs'))) as Hafter
          by by rewrite main_loop_snoc, Hbefore, Hstep.
        pose proof (main_loop_from _ _ _ _ _ _ _ _ Hafter Hlast) as Hrest.
        destruct (main_loop_grows _ _ _ _ _ _ (Hrest ltac:(lia)))
          as (_ & Hprefix & _). done.
      * apply elem_of_app. right. apply summary_failed_line.
    + intros e' He'.
      destruct (main_Raise_inv _ _ _ _ Hparse Hmk He')
        as (m & before_m & blob_m & Hm & Hbefore_m & Hraise & Hblob_m & Hcause).
      exists m, before_m, blob_m. split_and!; [|done|done|done|done].
      destruct (decide (n < m)) as [|Hge]; [done|]. exfalso.
      destruct (decide (m = n)) as [->|Hne].
      * fold u in Hbefore_m, Hraise. rewrite Hbefore in Hbefore_m.
        injection Hbefore_m as <-. congruence.
      * fold u in Hbefore_m, Hraise.
        rewrite (main_loop_raised _ _ _ _ _ _ n _ Hbefore_m Hraise) in Hbefore
          by lia. done.
  - by_evaluation.
Qed.

Lemma C4_all_backends_fail_one_aggregated_error_witness :
  (convert failing_world scratch_7 unmatched_7 ∅
   = (Raise (RuntimeError
        ("All backends failed:" +:+ newline +:+ "    "
           +:+ String.concat (newline +:+ "    ")
                 [ "imageio: " +:+ "unsupported DDS format";
                   "Wand: " +:+ "no decode delegate for this image format";
                   "Pillow: " +:+ "cannot identify image file";
                   "texconv: " +:+ "ERROR: unsupported format" ])),
      ∅)
   ∧ NoDup [ "imageio: " +:+ "unsupported DDS format";
             "Wand: " +:+ "no decode delegate for this image format";
             "Pillow: " +:+ "cannot identify image file";
             "texconv: " +:+ "ERROR: unsupported format" ])
  ∧ ∃ after : run_state,
      main_loop failing_run_world {[ 0 := "d/a.dds" ]}
        (path_join failing_run_world OUTPUT_DIR "_unmatched")
        (start_state {[ 0 := "d/a.dds" ]} ∅) (seq 0 1) = Return after
      ∧ failed after
        = [ (0, "d/a.png",
             "All backends failed:" +:+ newline +:+ "    "
               +:+ String.concat (newline +:+ "    ")
                     [ "imageio: unsupported DDS format";
                       "Wand: no decode delegate for this image format";
                       "Pillow: cannot identify image file";
                       "texconv: ERROR: unsupported format" ]) ]
      ∧ ok after = 0
      ∧ missing after = [].
Proof.
  destruct C4_all_backends_fail_one_aggregated_error
    as (_ & Hfour & Hrun & _).
  split.
  - apply (Hfour failing_world scratch_7 unmatched_7 ∅ ∅ ∅ ∅ ∅
             (OtherError "unsupported DDS format")
             (OtherError "no decode delegate for this image format")
             (OtherError "cannot identify image file")
             (RuntimeError "ERROR: unsupported format"));
      [by_evaluation|by_evaluation|by_evaluation|by_evaluation|].
    repeat constructor; intros msg; discriminate.
  - destruct (Hrun failing_run_world ∅ {[ 0 := "d/a.dds" ]} 0
                (start_state {[ 0 := "d/a.dds" ]} ∅) (Raw [x00])
                (RuntimeError
                   ("All backends failed:" +:+ newline +:+ "    "
                      +:+ String.concat (newline +:+ "    ")
                            [ "imageio: unsupported DDS format";
                              "Wand: no decode delegate for this image format";
                              "Pillow: cannot identify image file";
                              "texconv: ERROR: unsupported format" ]))
                ∅)
      as (after & Hloop & Hfailed & Hok & Hmissing & _).
    + by_evaluation.
    + by_evaluation.
    + unfold N_TEXTURES. lia.
    + reflexivity.
    + by_evaluation.
    + reflexivity.
    + by_evaluation.
    + by_evaluation.
    + exists after. split_and!; [exact Hloop| |exact Hok|exact Hmissing].
      rewrite Hfailed. by_evaluation.
Defined.

(** C7.  The iteration of an identifier whose blob is absent returns: it
    records the identifier in [missing], prints its line and leaves the
    counters, the failures and the tree as they were, and the loop goes
    on with the next identifier from that state.  The iteration of an
    identifier whose blob is there copies the blob, makes the directory
    and calls [convert] on the tree as the identifiers before it left
    it; its state is that of [convert]'s outcome.  The loop raises only
    what [shutil.copy2] or [os.makedirs] raised for an identifier whose
    blob is there, never for an absent blob; the identifiers without a
    blob can be left out of the loop without changing how it ends, the
    count of conversions, the failures or the tree.  A run that returns
    has recorded exactly the identifiers without a blob as missing, in
    order, each with its line. *)
Theorem C7_missing_blob_recorded_and_skipped :
  (∀ (W : World) (index_map : gmap nat string) (unmatched_dir : string)
     (st : run_state) (n : nat) (ns : list nat),
     texture_dir W !! texture_key n = None →
     process W index_map unmatched_dir st n
     = Return {| ok := ok st; failed := failed st;
                 missing := missing st ++ [n];
                 printed := printed st ++ ["  [MISSING] " +:+ texture_key n];
                 fs := fs st |}
     ∧ main_loop W index_map unmatched_dir st (n :: ns)
       = main_loop W index_map unmatched_dir
           {| ok := ok st; failed := failed st;
              missing := missing st ++ [n];
              printed := printed st ++ ["  [MISSING] " +:+ texture_key n];
              fs := fs st |} ns)
  ∧ (∀ (W : World) (index_map : gmap nat string) (unmatched_dir : string)
       (st : run_state) (n : nat) (blob : file),
       texture_dir W !! texture_key n = Some blob →
       shutil_copy2 W (path_join W TEXTURE_DIR (texture_key n))
         (path_join W (tmp_dir W) (texture_key n +:+ ".dds")) = None →
       os_makedirs W (destination_dir W unmatched_dir (index_map !! n))
         (fs st) = None →
       ∃ after : run_state,
         process W index_map unmatched_dir st n = Return after
         ∧ missing after = missing st
         ∧ match convert W
                   {| src_path :=
                        path_join W (tmp_dir W) (texture_key n +:+ ".dds");
                      src_file := blob |}
                   (destination W unmatched_dir (texture_key n)
                      (index_map !! n)).1 (fs st) return Prop with
           | (Return backend, fs') =>
               ok after = S (ok st)
               ∧ failed after = failed st
               ∧ fs after = fs'
               ∧ printed after
                 = (printed st
                      ++ [ "  ["
                             +:+ (if truthy (index_map !! n)
                                  then "OK:" +:+ ljust backend 8
                                  else "UNMATCHED  ")
                             +:+ "] " +:+ texture_key n +:+ " -> "
                             +:+ (destination W unmatched_dir (texture_key n)
                                    (index_map !! n)).2 ])%list
           | (Raise e, fs') =>
               ok after = ok st
               ∧ failed after
                 = (failed st
                      ++ [ (n, (destination W unmatched_dir (texture_key n)
                                  (index_map !! n)).2, exc_str e) ])%list
               ∧ fs after = fs'
               ∧ printed after
                 = (printed st
                      ++ [ "  [FAIL] " +:+ texture_key n +:+ " -> "
                             +:+ (destination W unmatched_dir (texture_key n)
                                    (index_map !! n)).2 ])%list
           end)
  ∧ (∀ (W : World) (index_map : gmap nat string) (unmatched_dir : string)
       (st : run_state) (ns : list nat) (e : pyexc),
       main_loop W index_map unmatched_dir st ns = Raise e →
       ∃ (pre : list nat) (n : nat) (post : list nat) (before : run_state)
         (blob : file),
         ns = (pre ++ n :: post)%list
         ∧ main_loop W index_map unmatched_dir st pre = Return before
         ∧ texture_dir W !! texture_key n = Some blob
         ∧ (shutil_copy2 W (path_join W TEXTURE_DIR (texture_key n))
              (path_join W (tmp_dir W) (texture_key n +:+ ".dds")) = Some e
            ∨ os_makedirs W (destination_dir W unmatched_dir (index_map !! n))
                (fs before) = Some e))
  ∧ (∀ (W : World) (index_map : gmap nat string) (unmatched_dir : string)
       (st : run_state) (ns : list nat),
       match main_loop W index_map unmatched_dir st ns,
             main_loop W index_map unmatched_dir st
               (filter (λ n, is_Some (texture_dir W !! texture_key n)) ns)
             return Prop with
       | Return a, Return b =>
           ok a = ok b ∧ failed a = failed b ∧ fs a = fs b
           ∧ missing a
             = (missing st
                  ++ filter (λ n, texture_dir W !! texture_key n = None) ns)%list
           ∧ missing b = missing st
       | Raise e, Raise e' => e = e'
       | _, _ => False
       end)
  ∧ (∀ (W : World) (fs0 : gmap string file) (st : run_state),
       main W fs0 = Return st →
       missing st
       = filter (λ n, texture_dir W !! texture_key n = None) (seq 0 N_TEXTURES)
       ∧ ∀ n, n < N_TEXTURES → texture_dir W !! texture_key n = None →
           "  [MISSING] " +:+ texture_key n ∈ printed st).
Proof.
  split_and!.
  - intros W index_map unmatched_dir st n ns Habsent.
    assert (process W index_map unmatched_dir st n = Return (skipped st n))
      as Hstep by by apply process_missing.
    split; [exact Hstep|]. cbn [main_loop]. by rewrite Hstep.
  - intros W index_map unmatched_dir st n blob Hblob Hcopy Hdir.
    eexists. split.
    { rewrite (process_present _ _ _ _ _ _ Hblob).
      unfold scratch_of at 1. cbn [src_path]. rewrite Hcopy, Hdir. reflexivity. }
    unfold scratch_of, converted.
    destruct (convert W _ _ (fs st)) as [[backend|e] fs'];
      cbn [ok failed missing printed fs]; split_and!; try done; lia.
  - intros W index_map unmatched_dir st ns e Hloop.
    apply main_loop_Raise in Hloop as (pre & n & post & before & -> & Hpre & Hn).
    apply process_Raise in Hn as (blob & Hblob & Hcause).
    by exists pre, n, post, before, blob.
  - intros W index_map unmatched_dir st ns.
    pose proof (main_loop_filter_present W index_map unmatched_dir ns st st
                  eq_refl eq_refl eq_refl) as Hsame.
    destruct (main_loop W index_map unmatched_dir st ns) as [a|e] eqn:Ha;
      [|done].
    destruct (main_loop W index_map unmatched_dir st (filter _ ns)) as [b|e];
      [|done].
    destruct Hsame as (H1 & H2 & H3 & H4).
    split_and!; [done|done|done| |done].
    by apply (main_loop_missing _ _ _ _ _ _ Ha).
  - intros W fs0 st (index_map & last & _ & _ & Hlast & ->)%main_Return_inv.
    rewrite missing_report, printed_report. split.
    + by rewrite (main_loop_missing _ _ _ _ _ _ Hlast).
    + intros n Hn Habsent. apply elem_of_app. left.
      apply (main_loop_missing_printed _ _ _ _ _ _ _ Hlast); [|done].
      apply elem_of_seq. lia.
Qed.

Lemma C7_missing_blob_recorded_and_skipped_witness :
  match main gap_world ∅ return Prop with
  | Return st =>
      missing st
      = filter (λ n, texture_dir gap_world !! texture_key n = None)
          (seq 0 N_TEXTURES)
      ∧ "  [MISSING] " +:+ texture_key 3 ∈ printed st
      ∧ head (drop 3 (missing st)) = Some 3
      ∧ N.of_nat (length (missing st)) = 548%N
      ∧ ok st = 1
      ∧ failed st = []
      ∧ printed st !! 7 = Some "  [MISSING] texture_3"
      ∧ printed st !! 8
        = Some "  [UNMATCHED  ] texture_4 -> _unmatched/texture_4.png"
      ∧ map_to_list (fs st)
        = [ ("D:\mio\textures_final\_unmatched\texture_4.png",
             Png one_pixel_rgba) ]
  | Raise _ => False
  end.
Proof.
  pose proof (proj2 (proj2 (proj2 (proj2
                C7_missing_blob_recorded_and_skipped))) gap_world ∅) as Hrun.
  assert (match main gap_world ∅ return Prop with
          | Return st =>
              head (drop 3 (missing st)) = Some 3
              ∧ N.of_nat (length (missing st)) = 548%N
              ∧ ok st = 1
              ∧ failed st = []
              ∧ printed st !! 7 = Some "  [MISSING] texture_3"
              ∧ printed st !! 8
                = Some "  [UNMATCHED  ] texture_4 -> _unmatched/texture_4.png"
              ∧ map_to_list (fs st)
                = [ ("D:\mio\textures_final\_unmatched\texture_4.png",
                     Png one_pixel_rgba) ]
          | Raise _ => False
          end) as Hrun' by by_evaluation.
  destruct (main gap_world ∅) as [st|e]; [|exact Hrun'].
  destruct (Hrun st eq_refl) as [Hmissing Hlines].
  split; [exact Hmissing|]. split; [|exact Hrun'].
  apply Hlines; [unfold N_TEXTURES; lia|by_evaluation].
Defined.

(** C8 (the code departs from the claim).  In [missing_world] identifier
    0 has a resolved path and no blob is on disk: the run converts
    nothing and records all 549 identifiers as missing, and the summary
    it prints reports identifier 0 as converted on its line [Named], and
    the 548 identifiers without a path as saved on its line [Unmatched]. *)
Theorem C8_summary_counts_missing_as_converted :
  match parse_texture_map (archive_meta missing_world) return Prop with
  | Return index_map => map_to_list index_map = [ (0, "d/a.dds") ]
  | Raise _ => False
  end
  ∧ texture_dir missing_world !! texture_key 0 = None
  ∧ match main missing_world ∅ return Prop with
    | Return st =>
        ok st = 0
        ∧ failed st = []
        ∧ head (missing st) = Some 0
        ∧ N.of_nat (length (missing st)) = 549%N
        ∧ map_to_list (fs st) = []
        ∧ drop 553 (printed st)
          = [ newline +:+ str_repeat "=" 60;
              "Done.";
              "  Named (1): 1 converted";
              "  Unmatched (548): saved to _unmatched/";
              "  Failed:          0";
              "  Missing on disk: 549";
              "Output: D:\mio\textures_final" ]
    | Raise _ => False
    end.
Proof. by_evaluation. Qed.

(** C9 (the code departs from the claim).  In [rerun_world] identifier 0
    has the path [d/a.dds], identifier 1 the path [d/texture_0.dds], and
    no backend converts blob 0.  The first run, on an empty tree, fails
    on identifier 0 and writes [d\texture_0.png] for identifier 1.  The
    second run, on the tree of the first and with the same input, finds
    that file where [try_texconv] expects the output of the executable
    for [texture_0], moves it to the destination of identifier 0 and
    counts identifier 0 as converted: the counts and the tree differ
    from those of the first run. *)
Theorem C9_second_run_differs :
  match main rerun_world ∅ return Prop with
  | Return st1 =>
      match main rerun_world (fs st1) return Prop with
      | Return st2 =>
          (ok st1, length (failed st1), N.of_nat (length (missing st1)))
          = (1, 1, 547%N)
          ∧ (ok st2, length (failed st2), N.of_nat (length (missing st2)))
            = (2, 0, 547%N)
          ∧ printed st1 !! 4 = Some "  [FAIL] texture_0 -> d/a.png"
          ∧ printed st2 !! 4 = Some "  [OK:texconv ] texture_0 -> d/a.png"
          ∧ map_to_list (fs st1)
            = [ ("D:\mio\textures_final\d\texture_0.png", Png one_pixel_rgba) ]
          ∧ map_to_list (fs st2)
            = [ ("D:\mio\textures_final\d\a.png", Png one_pixel_rgba);
                ("D:\mio\textures_final\d\texture_0.png", Png one_pixel_rgba) ]
      | Raise _ => False
      end
  | Raise _ => False
  end.
Proof. by_evaluation. Qed.

(** * Further properties *)

(** ** The parser *)

Lemma parse_loop_is_Some (data : list byte) (table_off comp_off : N)
    (ns : list nat) (m0 m : gmap nat string) (k : nat) :
  parse_loop data table_off comp_off ns m0 = Return m →
  is_Some (m !! k) → k ∈ ns ∨ is_Some (m0 !! k).
Proof.
  revert m0. induction ns as [|n ns IH]; intros m0 Hloop Hk.
  - cbn in Hloop. injection Hloop as <-. by right.
  - cbn [parse_loop] in Hloop.
    destruct (parse_entry data table_off comp_off n) as [[path|]|e]; [| |done].
    + destruct (IH _ Hloop Hk) as [Hin|Hsome].
      * left. apply elem_of_cons. by right.
      * destruct (decide (k = n)) as [->|Hne].
        -- left. apply elem_of_cons. by left.
        -- right. by rewrite lookup_insert_ne in Hsome.
    + destruct (IH _ Hloop Hk) as [Hin|Hsome]; [|by right].
      left. apply elem_of_cons. by right.
Qed.

(** A parse that returns has read both header fields. *)
Lemma parse_texture_map_n_Return (n_textures : nat) (data : list byte)
    (index_map : gmap nat string) :
  parse_texture_map_n n_textures data = Return index_map →
  ∃ table_off comp_off,
    unpack_I data 128%N = Return table_off
    ∧ unpack_I data 152%N = Return comp_off
    ∧ parse_loop data table_off comp_off (seq 0 n_textures) ∅ = Return index_map.
Proof.
  unfold parse_texture_map_n. intros Hparse.
  destruct (unpack_I data 128%N) as [table_off|e]; [|done].
  destruct (unpack_I data 152%N) as [comp_off|e]; [|done].
  by exists table_off, comp_off.
Qed.

Lemma parse_texture_map_n_is_Some (n_textures : nat) (data : list byte)
    (index_map : gmap nat string) (k : nat) :
  parse_texture_map_n n_textures data = Return index_map →
  is_Some (index_map !! k) → k < n_textures.
Proof.
  intros (table_off & comp_off & _ & _ & Hloop)%parse_texture_map_n_Return Hk.
  destruct (parse_loop_is_Some _ _ _ _ _ _ _ Hloop Hk) as [Hin|Hsome].
  - apply elem_of_seq in Hin. lia.
  - rewrite lookup_empty in Hsome. by destruct Hsome.
Qed.

(** The keys of the map that [parse_texture_map] returns are identifiers
    of the range it went through, so the map holds at most that many
    entries and the count [unnamed = N_TEXTURES - named] of [main] is
    never negative. *)
Theorem parse_texture_map_n_keys_in_range (n_textures : nat) (data : list byte)
    (index_map : gmap nat string) :
  parse_texture_map_n n_textures data = Return index_map →
  (∀ k, is_Some (index_map !! k) → k < n_textures)
  ∧ (size index_map ≤ n_textures)%nat.
Proof.
  intros Hparse.
  assert (size index_map ≤ n_textures)%nat as Hsize.
  { rewrite <- (size_dom (D := gset nat)).
    rewrite <- (size_set_seq (C := gset nat) 0 n_textures).
    apply subseteq_size. intros k Hk. apply elem_of_set_seq.
    apply elem_of_dom in Hk.
    pose proof (parse_texture_map_n_is_Some _ _ _ k Hparse Hk). lia. }
  split; [|done].
  intros k. by apply (parse_texture_map_n_is_Some _ data).
Qed.

Lemma parse_texture_map_n_keys_in_range_witness :
  ∃ index_map : gmap nat string,
    parse_texture_map_n 2 scenario_meta = Return index_map
    ∧ (size index_map ≤ 2)%nat.
Proof.
  exists {[ 0 := "d/a.dds" ]}.
  assert (parse_texture_map_n 2 scenario_meta = Return {[ 0 := "d/a.dds" ]})
    as Hparse by by_evaluation.
  split; [exact Hparse|].
  exact (proj2 (parse_texture_map_n_keys_in_range 2 scenario_meta _ Hparse)).
Defined.

(** What the loop body found when it assigns a path. *)
Lemma parse_entry_Some (data : list byte) (table_off comp_off : N) (n : nat)
    (path : string) :
  parse_entry data table_off comp_off n = Return (Some path) →
  ∃ str_abs str_len : N,
    (0 < str_len)%N ∧ (0 < str_abs < N.of_nat (length data))%N
    ∧ path = decode_ascii_replace (bytes_slice data str_abs (str_abs + str_len)).
Proof.
  intros Hentry.
  destruct (unpack_I data (comp_off + N.of_nat n * 4)%N) as [slot|e] eqn:Hslot;
    [|by unfold parse_entry in Hentry; rewrite Hslot in Hentry].
  rewrite (parse_entry_slot _ _ _ _ _ Hslot) in Hentry. cbv zeta in Hentry.
  destruct (N.of_nat (length data) <? table_off + slot * 32 + 32)%N; [done|].
  destruct (0 <? le_decode (take 8 (drop (N.to_nat (table_off + slot * 32 + 16)) data)))%N
    eqn:E1; [|done].
  destruct (0 <? le_decode (take 8 (drop (N.to_nat (table_off + slot * 32 + 8)) data)))%N
    eqn:E2; [|done].
  destruct (le_decode (take 8 (drop (N.to_nat (table_off + slot * 32 + 8)) data))
              <? N.of_nat (length data))%N eqn:E3; [|done].
  cbn [andb] in Hentry. injection Hentry as <-.
  apply N.ltb_lt in E1, E2, E3.
  eexists _, _. split_and!; [exact E1|exact E2|exact E3|reflexivity].
Qed.

Lemma decode_ascii_replace_empty (bs : list byte) :
  decode_ascii_replace bs = "" → bs = [].
Proof. destruct bs as [|b bs]; [done|]. cbn. by destruct (Byte.to_N b <? 128)%N. Qed.

Lemma bytes_of_string_decode_ascii_replace (bs : list byte) :
  Forall is_ascii_byte bs → bytes_of_string (decode_ascii_replace bs) = bs.
Proof.
  unfold bytes_of_string.
  induction 1 as [|b bs Hb _ IH]; [done|]. cbn [decode_ascii_replace].
  rewrite (proj2 (N.ltb_lt _ _) Hb). cbn. by rewrite byte_of_ascii_of_byte, IH.
Qed.

Lemma bytes_slice_segment (data : list byte) (start stop : N) :
  data = (take (N.to_nat start) data ++ bytes_slice data start stop
            ++ drop (N.to_nat start + length (bytes_slice data start stop)) data)%list.
Proof.
  unfold bytes_slice.
  set (k := N.to_nat stop - N.to_nat start). set (l := drop (N.to_nat start) data).
  rewrite <- drop_drop. fold l.
  assert (drop (length (take k l)) l = drop k l) as ->.
  { transitivity (drop (length (take k l)) (take k l ++ drop k l)).
    - by rewrite take_drop.
    - by rewrite drop_app_length. }
  rewrite take_drop. unfold l. by rewrite take_drop.
Qed.

(** Every path of the map that [parse_texture_map] returns is the
    decoding of a run of bytes of the file that is not empty and does
    not start at offset 0: the path is not empty, so the test
    [if game_path:] of [main] holds for it, and when those bytes are
    ASCII the path is made of exactly those bytes. *)
Theorem parse_texture_map_n_paths_from_file (n_textures : nat)
    (data : list byte) (index_map : gmap nat string) (n : nat) (path : string) :
  parse_texture_map_n n_textures data = Return index_map →
  index_map !! n = Some path →
  ∃ pre bs post : list byte,
    data = (pre ++ bs ++ post)%list
    ∧ pre ≠ [] ∧ bs ≠ []
    ∧ path = decode_ascii_replace bs
    ∧ path ≠ ""
    ∧ truthy (index_map !! n) = true
    ∧ (Forall is_ascii_byte bs → bytes_of_string path = bs).
Proof.
  intros (table_off & comp_off & _ & _ & Hloop)%parse_texture_map_n_Return Hn.
  pose proof (parse_loop_lookup _ _ _ _ _ _ n Hloop (NoDup_seq _ _)) as Hlook.
  rewrite Hn, lookup_empty in Hlook.
  case_decide as Hin; [|done].
  destruct (parse_entry data table_off comp_off n) as [[path'|]|e] eqn:Hentry;
    [|done|done].
  injection Hlook as <-.
  apply parse_entry_Some in Hentry as (str_abs & str_len & Hlen & [Habs Hin_file] & ->).
  set (bs := bytes_slice data str_abs (str_abs + str_len)).
  assert (bs ≠ []) as Hbs.
  { intros Hnil. apply (f_equal length) in Hnil. revert Hnil.
    unfold bs, bytes_slice. rewrite length_take, length_drop. cbn. lia. }
  assert (decode_ascii_replace bs ≠ "") as Hpath.
  { intros Hnil. by apply decode_ascii_replace_empty in Hnil. }
  exists (take (N.to_nat str_abs) data), bs,
    (drop (N.to_nat str_abs + length bs) data).
  split_and!; [apply bytes_slice_segment| |done|done|done| |].
  - intros Hnil. apply (f_equal length) in Hnil. revert Hnil.
    rewrite length_take. cbn. lia.
  - rewrite Hn. fold bs. cbn [truthy].
    destruct (decode_ascii_replace bs) eqn:E; [by destruct Hpath|reflexivity].
  - apply bytes_of_string_decode_ascii_replace.
Qed.

Lemma parse_texture_map_n_paths_from_file_witness :
  ∃ pre bs post : list byte,
    scenario_meta = (pre ++ bs ++ post)%list
    ∧ pre ≠ [] ∧ bs ≠ []
    ∧ "d/a.dds" = decode_ascii_replace bs
    ∧ "d/a.dds" ≠ ""
    ∧ truthy (({[ 0 := "d/a.dds" ]} : gmap nat string) !! 0) = true
    ∧ (Forall is_ascii_byte bs → bytes_of_string "d/a.dds" = bs).
Proof.
  apply (parse_texture_map_n_paths_from_file 2 scenario_meta
           {[ 0 := "d/a.dds" ]} 0 "d/a.dds"); by_evaluation.
Defined.

Lemma parse_loop_Raise (data : list byte) (table_off comp_off : N)
    (ns : list nat) (m0 : gmap nat string) (e : pyexc) :
  parse_loop data table_off comp_off ns m0 = Raise e →
  ∃ msg, e = StructError msg.
Proof.
  revert m0. induction ns as [|n ns IH]; intros m0 Hloop; [done|].
  cbn [parse_loop] in Hloop.
  destruct (parse_entry data table_off comp_off n) as [[path|]|e'] eqn:Hentry;
    [by eapply IH|by eapply IH|].
  injection Hloop as <-. by apply parse_entry_Raise in Hentry as [? _].
Qed.

Lemma parse_texture_map_n_Raise (n_textures : nat) (data : list byte) (e : pyexc) :
  parse_texture_map_n n_textures data = Raise e → ∃ msg, e = StructError msg.
Proof.
  unfold parse_texture_map_n. intros Hparse.
  destruct (unpack_I data 128%N) as [table_off|e1] eqn:Ht.
  - destruct (unpack_I data 152%N) as [comp_off|e2] eqn:Hc.
    + by eapply parse_loop_Raise.
    + injection Hparse as <-. by apply unpack_from_Raise in Hc as [? _].
  - injection Hparse as <-. by apply unpack_from_Raise in Ht as [? _].
Qed.

Lemma parse_texture_map_n_raises_iff (n_textures : nat) (data : list byte) :
  (∃ e, parse_texture_map_n (S n_textures) data = Raise e)
  ↔ (N.of_nat (length data) < 156)%N
    ∨ (N.of_nat (length data)
       < le_decode (take 4 (drop 152 data)) + 4 * N.of_nat (S n_textures))%N.
Proof.
  unfold parse_texture_map_n.
  destruct (decide (N.of_nat (length data) < 156)%N) as [Hshort|Hlong].
  - split; [by left|]. intros _.
    destruct (unpack_I data 128%N) as [table_off|e1] eqn:Ht; [|by eexists].
    unfold unpack_I. rewrite (unpack_from_outside 4 data 152) by lia.
    by eexists.
  - unfold unpack_I.
    rewrite (unpack_from_inside 4 data 128), (unpack_from_inside 4 data 152) by lia.
    cbn [mbind result_bind]. change (N.to_nat 152) with 152.
    set (comp_off := le_decode (take 4 (drop 152 data))).
    set (table_off := le_decode (take 4 (drop (N.to_nat 128) data))).
    split.
    + intros [e Hraise]. right.
      destruct (decide (N.of_nat (length data)
                        < comp_off + 4 * N.of_nat (S n_textures))%N)
        as [|Hfit]; [done|].
      destruct (parse_loop_returns data table_off comp_off
                  (seq 0 (S n_textures)) ∅) as [m Hm]; [|congruence].
      intros n Hn%elem_of_seq. lia.
    + intros [Hshort|Hout]; [done|].
      destruct (parse_loop_raises data table_off comp_off
                  (seq 0 (S n_textures)) ∅ n_textures) as [msg Hmsg];
        [apply elem_of_seq; lia|lia|by eexists].
Qed.

(** [parse_texture_map] raises on an existing metadata file exactly when
    the file is shorter than the 156 bytes of its header fields or than
    the end of its indirection table, [comp_off + 4 * N_TEXTURES]; what
    it raises is [struct.error], and [main] raises it too. *)
Theorem parse_texture_map_raises_iff_file_too_short (data : list byte) :
  ((∃ e, parse_texture_map (Some data) = Raise e)
   ↔ (N.of_nat (length data) < 156)%N
     ∨ (N.of_nat (length data)
        < le_decode (take 4 (drop 152 data)) + 4 * N.of_nat N_TEXTURES)%N)
  ∧ (∀ e, parse_texture_map (Some data) = Raise e → ∃ msg, e = StructError msg)
  ∧ (∀ (W : World) (fs0 : gmap string file) (e : pyexc),
       archive_meta W = Some data →
       parse_texture_map (Some data) = Raise e → main W fs0 = Raise e).
Proof.
  split_and!.
  - apply (parse_texture_map_n_raises_iff 548).
  - intros e. apply parse_texture_map_n_Raise.
  - intros W fs0 e Hmeta Hparse. rewrite main_cases, Hmeta, Hparse. done.
Qed.

Lemma parse_texture_map_raises_iff_file_too_short_witness :
  main (example_world all_installed reads_blob_1 reads_blob_1 reads_blob_1
          texconv_fails (Some header_only_meta) ∅) ∅
  = Raise (StructError
      ("unpack_from requires a buffer of at least 4100 bytes for "
         +:+ "unpacking 4 bytes at offset 4096 (actual buffer size is 156)")).
Proof.
  apply (proj2 (proj2 (parse_texture_map_raises_iff_file_too_short
                         header_only_meta))); by_evaluation.
Defined.

(** ** The backends *)





(** ** The chain *)

Lemma convert_loop_Raise
    (backends : list (string * (scratch → string → gmap string file
                                → option pyexc * gmap string file)))
    (errors : list string) (src : scratch) (dst : string)
    (fs fs' : gmap string file) (e : pyexc) :
  convert_loop backends errors src dst fs = (Raise e, fs') →
  ∃ more : list string,
    e = RuntimeError (all_failed (errors ++ more))
    ∧ (length more ≤ length backends)%nat.
Proof.
  revert errors fs.
  induction backends as [|[name fn] rest IH]; intros errors fs Hraise.
  - cbn in Hraise. injection Hraise as <- <-. exists []. by rewrite app_nil_r.
  - cbn [convert_loop] in Hraise.
    destruct (fn src dst fs) as [raised fs1].
    assert (∀ errors1 more1,
      errors1 = (errors ++ more1)%list → (length more1 ≤ 1)%nat →
      convert_loop rest errors1 src dst fs1 = (Raise e, fs') →
      ∃ more : list string,
        e = RuntimeError (all_failed (errors ++ more))
        ∧ (length more ≤ length ((name, fn) :: rest))%nat) as Hnext.
    { intros errors1 more1 -> Hlen Hrest.
      destruct (IH _ _ Hrest) as (more & -> & Hmore).
      exists (more1 ++ more)%list. rewrite app_assoc. split; [done|].
      rewrite length_app. cbn [length]. lia. }
    destruct raised as [e1|].
    + destruct e1;
        first [ by apply (Hnext errors []); [by rewrite app_nil_r|cbn; lia|]
              | by eapply (Hnext _ [_]); [done|cbn; lia|] ].
    + case_decide; [done|].
      by apply (Hnext errors []); [by rewrite app_nil_r|cbn; lia|].
Qed.

(** [convert] has two outcomes.  It returns the name of one of the four
    backends, and a file is then at the destination; or it raises a
    [RuntimeError] whose message is the line [All backends failed:]
    followed by at most four entries: the exception of a backend never
    leaves [convert]. *)
Theorem convert_returns_a_backend_or_raises_RuntimeError (W : World)
    (src : scratch) (dst : string) (fs : gmap string file) :
  match convert W src dst fs return Prop with
  | (Return name, fs') =>
      name ∈ ["imageio"; "Wand"; "Pillow"; "texconv"] ∧ is_Some (fs' !! dst)
  | (Raise e, fs') =>
      ∃ errors : list string,
        e = RuntimeError
              ("All backends failed:" +:+ newline +:+ "    "
                 +:+ String.concat (newline +:+ "    ") errors)
        ∧ (length errors ≤ 4)%nat
  end.
Proof.
  destruct (convert W src dst fs) as [[name|e] fs'] eqn:Hconv.
  - apply convert_loop_Return in Hconv
      as (pre & fn & post & Hlist & _ & _ & Hdst).
    split; [|done].
    change ["imageio"; "Wand"; "Pillow"; "texconv"] with (BACKENDS W).*1.
    rewrite Hlist, fmap_app. apply elem_of_app. right. by left.
  - apply convert_loop_Raise in Hconv as (more & -> & Hlen). by exists more.
Qed.

(** With none of the Python libraries installed, [convert] is the
    [texconv] backend alone: it returns [texconv] or raises the
    aggregated error with at most the entry of [texconv]. *)
Theorem convert_without_libraries (W : World) (src : scratch) (dst : string)
    (fs : gmap string file) :
  (∀ module, ∃ msg, py_import W module = Some (ImportError msg)) →
  convert W src dst fs
  = convert_with [("texconv", try_texconv W)] src dst fs
  ∧ match (convert W src dst fs).1 return Prop with
    | Return name => name = "texconv"
    | Raise e =>
        ∃ errors : list string,
          e = RuntimeError
                ("All backends failed:" +:+ newline +:+ "    "
                   +:+ String.concat (newline +:+ "    ") errors)
          ∧ (length errors ≤ 1)%nat
    end.
Proof.
  intros Hnone.
  assert (convert W src dst fs
          = convert_with [("texconv", try_texconv W)] src dst fs) as Heq.
  { unfold convert, convert_with, BACKENDS. cbn [convert_loop].
    unfold try_imageio, try_wand, try_pillow.
    destruct (Hnone "imageio.v3") as [m1 ->].
    destruct (Hnone "wand.image") as [m2 ->].
    destruct (Hnone "PIL") as [m3 ->]. done. }
  split; [done|]. rewrite Heq. unfold convert_with.
  destruct (convert_loop _ [] src dst fs) as [[name|e] fs'] eqn:Hconv; cbn [fst].
  - apply convert_loop_Return in Hconv as (pre & fn & post & Hlist & _).
    destruct pre as [|? [|? ?]]; by simplify_eq/=.
  - apply convert_loop_Raise in Hconv as (more & -> & Hlen). by exists more.
Qed.

Lemma convert_without_libraries_witness :
  convert texconv_only_world scratch_7 unmatched_7 ∅
  = convert_with [("texconv", try_texconv texconv_only_world)]
      scratch_7 unmatched_7 ∅
  ∧ match (convert texconv_only_world scratch_7 unmatched_7 ∅).1
          return Prop with
    | Return name => name = "texconv"
    | Raise e =>
        ∃ errors : list string,
          e = RuntimeError
                ("All backends failed:" +:+ newline +:+ "    "
                   +:+ String.concat (newline +:+ "    ") errors)
          ∧ (length errors ≤ 1)%nat
    end.
Proof.
  apply convert_without_libraries. intros module. by eexists.
Defined.

(** ** The counters of a run *)

Lemma sublist_elem_of {A : Type} (l1 l2 : list A) (x : A) :
  l1 `sublist_of` l2 → x ∈ l1 → x ∈ l2.
Proof.
  induction 1 as [|y l1 l2 _ IH|y l1 l2 _ IH]; [done| |].
  - rewrite !elem_of_cons. intuition.
  - rewrite elem_of_cons. intuition.
Qed.

Lemma length_filter_split {A : Type} (P : A → Prop) `{!∀ x, Decision (P x)}
    (l : list A) :
  length (filter P l) + length (filter (λ x, ¬ P x) l) = length l.
Proof.
  induction l as [|x l IH]; [done|]. rewrite !filter_cons.
  destruct (decide (P x)).
  - rewrite decide_False by tauto. cbn. lia.
  - rewrite decide_True by done. cbn. lia.
Qed.

Lemma filter_ext_in {A : Type} (P Q : A → Prop) `{!∀ x, Decision (P x)}
    `{!∀ x, Decision (Q x)} (l : list A) :
  (∀ x, x ∈ l → P x ↔ Q x) → filter P l = filter Q l.
Proof.
  induction l as [|x l IH]; intros Hext; [done|]. rewrite !filter_cons.
  rewrite IH by (intros y Hy; apply Hext; by right).
  destruct (decide (P x)) as [HP|HP].
  - rewrite decide_True; [done|]. apply Hext; [by left|done].
  - rewrite decide_False; [done|]. intros HQ. apply HP. apply Hext; [by left|done].
Qed.

(** What one iteration adds to the counters. *)
Lemma process_counts (W : World) (index_map : gmap nat string)
    (unmatched_dir : string) (st st' : run_state) (n : nat) :
  process W index_map unmatched_dir st n = Return st' →
  match texture_dir W !! texture_key n with
  | None =>
      ok st' = ok st ∧ failed_ids (failed st') = failed_ids (failed st)
  | Some _ =>
      (ok st' = S (ok st) ∧ failed_ids (failed st') = failed_ids (failed st))
      ∨ (ok st' = ok st
         ∧ failed_ids (failed st') = (failed_ids (failed st) ++ [n])%list)
  end.
Proof.
  destruct (texture_dir W !! texture_key n) as [blob|] eqn:Hblob.
  - rewrite (process_present _ _ _ _ _ _ Hblob).
    destruct (shutil_copy2 W _ _); [done|].
    destruct (os_makedirs W _ _); [done|].
    intros [= <-]. unfold converted.
    destruct (convert W _ _ (fs st)) as [[backend|e] fs'];
      cbn [ok failed].
    + left. split; [lia|done].
    + right. split; [done|]. unfold failed_ids. by rewrite fmap_app.
  - rewrite process_missing by done. by intros [= <-].
Qed.

Lemma main_loop_counts (W : World) (index_map : gmap nat string)
    (unmatched_dir : string) (ns : list nat) (st st' : run_state) :
  main_loop W index_map unmatched_dir st ns = Return st' →
  ok st' + length (failed st')
  = ok st + length (failed st)
    + length (filter (λ n, is_Some (texture_dir W !! texture_key n)) ns)
  ∧ ∃ l : list nat,
      failed_ids (failed st') = (failed_ids (failed st) ++ l)%list
      ∧ l `sublist_of` filter (λ n, is_Some (texture_dir W !! texture_key n)) ns.
Proof.
  revert st. induction ns as [|k ns IH]; intros st Hloop.
  - cbn in Hloop. injection Hloop as <-. split; [cbn; lia|].
    exists []. by rewrite app_nil_r.
  - cbn [main_loop] in Hloop.
    destruct (process W index_map unmatched_dir st k) as [st1|e] eqn:Hstep;
      [|done].
    destruct (IH _ Hloop) as (Hcount & l & Hids & Hsub).
    pose proof (process_counts _ _ _ _ _ _ Hstep) as Hk.
    assert (∀ st0 : run_state,
              length (failed st0) = length (failed_ids (failed st0))) as Hlen
      by (intros st0; unfold failed_ids; by rewrite length_fmap).
    rewrite filter_cons. rewrite !Hlen in *.
    destruct (texture_dir W !! texture_key k) as [blob|] eqn:Hblob.
    + rewrite decide_True by done.
      destruct Hk as [[Hok Hf]|[Hok Hf]].
      * split; [rewrite Hcount, Hok, Hf; cbn; lia|].
        exists l. rewrite Hids, Hf. split; [done|]. by apply sublist_cons.
      * split; [rewrite Hcount, Hok, Hf, length_app; cbn; lia|].
        exists (k :: l). rewrite Hids, Hf, <- app_assoc. split; [done|].
        by apply sublist_skip.
    + rewrite decide_False by (by intros [? ?]).
      destruct Hk as [Hok Hf].
      split; [rewrite Hcount, Hok, Hf; lia|].
      exists l. by rewrite Hids, Hf.
Qed.

(** In a run that returns, every identifier is counted once: as
    converted, as failed or as missing.  The identifiers of the failure
    records are identifiers whose blob is there, in increasing order and
    without repetition, and none of them is recorded as missing. *)
Theorem main_counts_partition_identifiers (W : World) (fs0 : gmap string file)
    (st : run_state) :
  main W fs0 = Return st →
  ok st + length (failed st) + length (missing st) = N_TEXTURES
  ∧ failed_ids (failed st)
      `sublist_of` filter (λ n, is_Some (texture_dir W !! texture_key n))
                     (seq 0 N_TEXTURES)
  ∧ missing st
    = filter (λ n, texture_dir W !! texture_key n = None) (seq 0 N_TEXTURES)
  ∧ NoDup (failed_ids (failed st) ++ missing st)%list.
Proof.
  intros (index_map & last & _ & _ & Hlast & ->)%main_Return_inv.
  rewrite missing_report, ok_report, failed_report.
  pose proof (main_loop_missing _ _ _ _ _ _ Hlast) as Hmiss.
  destruct (main_loop_counts _ _ _ _ _ _ Hlast) as (Hcount & l & Hids & Hsub).
  change (missing (start_state index_map fs0)) with (@nil nat) in Hmiss.
  change (ok (start_state index_map fs0)) with 0 in Hcount.
  change (failed (start_state index_map fs0))
    with (@nil (nat * string * string)) in Hcount, Hids.
  cbn [app length Nat.add fmap list_fmap failed_ids] in Hmiss, Hcount, Hids.
  rewrite Hids, Hmiss. clear Hids.
  split_and!.
  - rewrite Hcount.
    etrans; [|exact (length_seq N_TEXTURES 0)].
    rewrite <- (length_filter_split
                  (λ n, is_Some (texture_dir W !! texture_key n))
                  (seq 0 N_TEXTURES)).
    f_equal. f_equal. apply filter_ext_in. intros n _.
    rewrite <- eq_None_not_Some. done.
  - done.
  - done.
  - apply NoDup_app. split_and!.
    + eapply sublist_NoDup; [|exact Hsub]. apply NoDup_filter, NoDup_seq.
    + intros n Hn%(sublist_elem_of _ _ _ Hsub) Hn'.
      apply list_elem_of_filter in Hn as [Hpres _].
      apply list_elem_of_filter in Hn' as [Habs _].
      rewrite Habs in Hpres. by destruct Hpres.
    + apply NoDup_filter, NoDup_seq.
Qed.

Lemma main_counts_partition_identifiers_witness :
  match main rerun_world ∅ return Prop with
  | Return st =>
      ok st + length (failed st) + length (missing st) = N_TEXTURES
      ∧ failed_ids (failed st) = [0]
      ∧ NoDup (failed_ids (failed st) ++ missing st)%list
  | Raise _ => False
  end.
Proof.
  pose proof (main_counts_partition_identifiers rerun_world ∅) as Hrun.
  assert (match main rerun_world ∅ return Prop with
          | Return st => failed_ids (failed st) = [0]
          | Raise _ => False
          end) as Hids by by_evaluation.
  destruct (main rerun_world ∅) as [st|e]; [|exact Hids].
  destruct (Hrun st eq_refl) as (Hsum & _ & _ & Hnd).
  by split_and!.
Defined.

(** ** The count of the line [Named] *)

Lemma length_filter_dom_seq (index_map : gmap nat string) (n_textures : nat) :
  (∀ k, is_Some (index_map !! k) → k < n_textures) →
  length (filter (λ n, n ∈ dom index_map) (seq 0 n_textures)) = size index_map.
Proof.
  intros Hdom. rewrite <- (size_dom (D := gset nat)). unfold size, set_size. cbn.
  apply Permutation_length, NoDup_Permutation.
  - apply NoDup_filter, NoDup_seq.
  - apply NoDup_elements.
  - intros n. rewrite list_elem_of_filter, elem_of_elements, elem_of_seq.
    split; [tauto|]. intros Hn. split; [done|].
    apply elem_of_dom in Hn. apply Hdom in Hn. lia.
Qed.

Lemma named_converted_failures (index_map : gmap nat string)
    (failed : list (nat * string * string)) :
  (∀ k, is_Some (index_map !! k) → k < N_TEXTURES) →
  NoDup (failed_ids failed) →
  named_converted index_map failed
    + length (filter (λ f, is_Some (index_map !! f.1.1)) failed)
  = size index_map.
Proof.
  intros Hdom Hnd. unfold named_converted. fold (failed_ids failed).
  rewrite <- (length_filter_dom_seq index_map N_TEXTURES Hdom).
  set (ids := failed_ids failed) in *.
  set (failed_ns := list_to_set ids : gset nat).
  assert (length (filter (λ f, is_Some (index_map !! f.1.1)) failed)
          = length (filter (λ n, n ∈ dom index_map ∧ ¬ (n ∉ failed_ns))
                      (seq 0 N_TEXTURES))) as ->.
  { transitivity (length (filter (λ n, is_Some (index_map !! n)) ids)).
    { unfold ids, failed_ids. clear. induction failed as [|f failed IH]; [done|].
      cbn [fmap list_fmap]. rewrite !filter_cons. cbn.
      destruct (decide (is_Some (index_map !! f.1.1))); cbn; by rewrite IH. }
    apply Permutation_length, NoDup_Permutation.
    - by apply NoDup_filter.
    - apply NoDup_filter, NoDup_seq.
    - intros n. rewrite !list_elem_of_filter, elem_of_seq, elem_of_dom.
      unfold failed_ns. rewrite elem_of_list_to_set. split.
      + intros [Hn Hin]. split_and!; [done|tauto|lia|]. apply Hdom in Hn. lia.
      + intros [[Hn Hin] _]. split; [done|].
        destruct (decide (n ∈ ids)); tauto. }
  set (l := seq 0 N_TEXTURES). clearbody l. clear.
  induction l as [|n l IH]; [done|]. rewrite !filter_cons.
  destruct (decide (n ∈ dom index_map)) as [Hn|Hn].
  - destruct (decide (n ∉ failed_ns)) as [Hf|Hf].
    + rewrite decide_True by done. rewrite decide_False by tauto. cbn. lia.
    + rewrite decide_False by tauto. rewrite decide_True by done. cbn. lia.
  - rewrite !decide_False by tauto. done.
Qed.

Lemma summary_named_line (index_map : gmap nat string) (st : run_state) :
  "  Named (" +:+ pretty (size index_map) +:+ "): "
    +:+ pretty (named_converted index_map (failed st)) +:+ " converted"
  ∈ summary index_map st.
Proof.
  unfold summary. apply elem_of_app. left.
  apply elem_of_cons. right. apply elem_of_cons. right.
  apply elem_of_cons. by left.
Qed.

(** The number that the summary prints as converted on its line [Named]
    is the number of identifiers with a path less the number of failure
    records of identifiers with a path, whether their blobs were there
    or not. *)
Theorem summary_named_count_is_named_minus_failures (W : World)
    (fs0 : gmap string file) (index_map : gmap nat string) (st : run_state) :
  parse_texture_map (archive_meta W) = Return index_map →
  main W fs0 = Return st →
  named_converted index_map (failed st)
  = size index_map
    - length (filter (λ f, is_Some (index_map !! f.1.1)) (failed st))
  ∧ (length (filter (λ f, is_Some (index_map !! f.1.1)) (failed st))
     ≤ size index_map)%nat
  ∧ "  Named (" +:+ pretty (size index_map) +:+ "): "
      +:+ pretty (size index_map
                  - length (filter (λ f, is_Some (index_map !! f.1.1))
                              (failed st)))
      +:+ " converted"
    ∈ printed st.
Proof.
  intros Hparse (index_map' & last & Hparse' & _ & Hlast & ->)%main_Return_inv.
  assert (index_map' = index_map) as -> by congruence.
  rewrite failed_report, printed_report.
  assert (named_converted index_map (failed last)
            + length (filter (λ f, is_Some (index_map !! f.1.1)) (failed last))
          = size index_map) as Hsum.
  { apply named_converted_failures.
    - destruct (archive_meta W) as [data|]; [|done].
      intros k. by apply (parse_texture_map_n_is_Some _ data).
    - destruct (main_loop_counts _ _ _ _ _ _ Hlast) as (_ & l & Hids & Hsub).
      rewrite Hids. cbn [failed start_state failed_ids fmap list_fmap app].
      eapply sublist_NoDup; [|exact Hsub]. apply NoDup_filter, NoDup_seq. }
  split_and!; [lia|lia|].
  apply elem_of_app. right.
  replace (size index_map - _) with (named_converted index_map (failed last))
    by lia.
  apply summary_named_line.
Qed.

Lemma summary_named_count_is_named_minus_failures_witness :
  match main failing_run_world ∅ return Prop with
  | Return st =>
      named_converted {[ 0 := "d/a.dds" ]} (failed st) = 0
      ∧ printed st !! 555 = Some "  Named (1): 0 converted"
  | Raise _ => False
  end.
Proof.
  pose proof (summary_named_count_is_named_minus_failures failing_run_world ∅
                {[ 0 := "d/a.dds" ]}) as Hrun.
  assert (parse_texture_map (archive_meta failing_run_world)
          = Return {[ 0 := "d/a.dds" ]}) as Hparse by by_evaluation.
  assert (match main failing_run_world ∅ return Prop with
          | Return st =>
              size ({[ 0 := "d/a.dds" ]} : gmap nat string)
              - length (filter (λ f, is_Some (({[ 0 := "d/a.dds" ]}
                                                 : gmap nat string) !! f.1.1))
                          (failed st)) = 0
              ∧ printed st !! 555 = Some "  Named (1): 0 converted"
          | Raise _ => False
          end) as Heval by by_evaluation.
  destruct (main failing_run_world ∅) as [st|e]; [|exact Heval].
  destruct (Hrun st Hparse eq_refl) as (Hcount & _).
  destruct Heval as [Hzero Hline]. split; [|exact Hline].
  by rewrite Hcount.
Defined.

(** ** What ends a run *)

(** An exception of [shutil.copy2] or [os.makedirs] for one identifier
    ends the run: [main] raises it, the identifiers after it are not
    dealt with and no summary is printed. *)
Theorem main_aborts_when_copy_or_makedirs_raises (W : World)
    (fs0 : gmap string file) (index_map : gmap nat string) (n : nat)
    (before : run_state) (blob : file) (e : pyexc) :
  parse_texture_map (archive_meta W) = Return index_map →
  os_makedirs W OUTPUT_DIR fs0 = None →
  n < N_TEXTURES →
  main_loop W index_map (path_join W OUTPUT_DIR "_unmatched")
    (start_state index_map fs0) (seq 0 n) = Return before →
  texture_dir W !! texture_key n = Some blob →
  shutil_copy2 W (path_join W TEXTURE_DIR (texture_key n))
    (path_join W (tmp_dir W) (texture_key n +:+ ".dds")) = Some e
  ∨ (shutil_copy2 W (path_join W TEXTURE_DIR (texture_key n))
       (path_join W (tmp_dir W) (texture_key n +:+ ".dds")) = None
     ∧ os_makedirs W
         (destination_dir W (path_join W OUTPUT_DIR "_unmatched")
            (index_map !! n)) (fs before) = Some e) →
  main W fs0 = Raise e.
Proof.
  intros Hparse Hmk Hn Hbefore Hblob Hcause.
  rewrite main_cases, Hparse, Hmk.
  assert (process W index_map (path_join W OUTPUT_DIR "_unmatched") before n
          = Raise e) as Hstep.
  { rewrite (process_present _ _ _ _ _ _ Hblob). unfold scratch_of at 1.
    cbn [src_path].
    destruct Hcause as [->|[-> ->]]; done. }
  by rewrite (main_loop_raised _ _ _ _ _ _ N_TEXTURES _ Hbefore Hstep Hn).
Qed.

Lemma main_aborts_when_copy_or_makedirs_raises_witness :
  main clash_world ∅
  = Raise (OtherError
             ("[WinError 183] Cannot create a file when that file already "
                +:+ "exists: 'D:\\mio\\textures_final\\x.png'")).
Proof.
  pose proof (main_aborts_when_copy_or_makedirs_raises clash_world ∅
                {[ 0 := "x.dds"; 1 := "x.png/y.dds" ]} 1) as Habort.
  assert (match main_loop clash_world {[ 0 := "x.dds"; 1 := "x.png/y.dds" ]}
                  (path_join clash_world OUTPUT_DIR "_unmatched")
                  (start_state {[ 0 := "x.dds"; 1 := "x.png/y.dds" ]} ∅)
                  (seq 0 1) return Prop with
          | Return before =>
              os_makedirs clash_world
                (destination_dir clash_world
                   (path_join clash_world OUTPUT_DIR "_unmatched")
                   (({[ 0 := "x.dds"; 1 := "x.png/y.dds" ]}
                       : gmap nat string) !! 1))
                (fs before)
              = Some (OtherError
                        ("[WinError 183] Cannot create a file when that file "
                           +:+ "already exists: "
                           +:+ "'D:\\mio\\textures_final\\x.png'"))
          | Raise _ => False
          end) as Hbefore by by_evaluation.
  destruct (main_loop clash_world _ _ _ (seq 0 1)) as [before|e0];
    [|destruct Hbefore].
  apply (Habort before (Raw [x01])).
  - by_evaluation.
  - by_evaluation.
  - unfold N_TEXTURES. lia.
  - reflexivity.
  - by_evaluation.
  - right. split; [reflexivity|]. etrans; [exact Hbefore|]. by_evaluation.
Defined.

(** ** The listing of the failures *)

Lemma append_cons (x : ascii) (a b : string) :
  String x a +:+ b = String x (a +:+ b).
Proof. reflexivity. Qed.

Lemma append_assoc (a b c : string) : (a +:+ b) +:+ c = a +:+ (b +:+ c).
Proof. induction a as [|x a IH]; [done|]. by rewrite !append_cons, IH. Qed.

Lemma append_empty_r (a : string) : a +:+ "" = a.
Proof. induction a as [|x a IH]; [done|]. by rewrite append_cons, IH. Qed.

Lemma length_append (a b : string) :
  String.length (a +:+ b) = String.length a + String.length b.
Proof.
  induction a as [|x a IH]; [done|]. rewrite append_cons. cbn [String.length].
  by rewrite IH.
Qed.

Lemma append_inj_r (a b c : string) : a +:+ c = b +:+ c → a = b.
Proof.
  revert b. induction a as [|x a IH]; intros [|y b] Heq; [done| | |].
  - apply (f_equal String.length) in Heq.
    rewrite !length_append in Heq. cbn [String.length] in Heq. lia.
  - apply (f_equal String.length) in Heq.
    rewrite !length_append in Heq. cbn [String.length] in Heq. lia.
  - rewrite !append_cons in Heq. injection Heq as -> Heq. f_equal. by apply IH.
Qed.

Lemma one_line_append (a b : string) :
  one_line a = true → one_line b = true → one_line (a +:+ b) = true.
Proof.
  intros Ha Hb. induction a as [|x a IH]; [done|].
  rewrite append_cons. cbn [one_line] in *.
  apply andb_true_iff in Ha as [-> Ha]. by apply IH.
Qed.

Lemma splitlines_go_line (cur s rest : string) :
  one_line s = true →
  splitlines_go cur false (s +:+ String (ascii_of_nat 10) rest)
  = (cur +:+ s) :: splitlines_go "" false rest.
Proof.
  revert cur. induction s as [|c s IH]; intros cur Hs.
  - by rewrite append_empty_r.
  - cbn [one_line] in Hs.
    apply andb_true_iff in Hs as [[_ Hc%negb_true_iff]%andb_true_iff Hs].
    rewrite append_cons. cbn [splitlines_go andb]. rewrite Hc.
    rewrite IH by done. by rewrite append_assoc.
Qed.

Lemma splitlines_go_last (cur s : string) :
  one_line s = true → cur +:+ s ≠ "" →
  splitlines_go cur false s = [cur +:+ s].
Proof.
  revert cur. induction s as [|c s IH]; intros cur Hs Hne.
  - rewrite append_empty_r in *. cbn. by destruct cur.
  - cbn [one_line] in Hs.
    apply andb_true_iff in Hs as [[_ Hc%negb_true_iff]%andb_true_iff Hs].
    cbn [splitlines_go andb]. rewrite Hc.
    rewrite IH; [by rewrite append_assoc|done|].
    rewrite append_assoc. done.
Qed.

(** The lines of the entries of an aggregated error, each after the four
    spaces that [convert] puts before it. *)
Lemma splitlines_entries (e : string) (es : list string) :
  Forall (λ e, one_line e = true) (e :: es) →
  splitlines_go "" false
    ("    " +:+ String.concat (newline +:+ "    ") (e :: es))
  = (λ e, "    " +:+ e) <$> (e :: es).
Proof.
  revert e. induction es as [|e' es IH]; intros e Hall.
  - apply Forall_cons in Hall as [He _]. cbn [String.concat fmap list_fmap].
    rewrite splitlines_go_last; [done|by apply one_line_append|done].
  - apply Forall_cons in Hall as [He Hall].
    change (String.concat (newline +:+ "    ") (e :: e' :: es))
      with (e +:+ (newline +:+ "    ")
              +:+ String.concat (newline +:+ "    ") (e' :: es)).
    change ((newline +:+ "    ") +:+ ?x)
      with (String (ascii_of_nat 10) ("    " +:+ x)).
    rewrite <- append_assoc.
    rewrite splitlines_go_line by (by apply one_line_append).
    rewrite IH by done. done.
Qed.

(** The summary lists a failure of [convert] on one line per backend
    entry: after the line of the identifier and its label come the line
    [All backends failed:] and the entries, in order, each indented by
    eight spaces, provided the entries are ASCII texts without a line
    boundary. *)
Theorem failure_lines_of_aggregated_error (n : nat) (label : string)
    (errors : list string) :
  errors ≠ [] →
  Forall (λ e, one_line e = true) errors →
  failure_lines
    (n, label,
     "All backends failed:" +:+ newline +:+ "    "
       +:+ String.concat (newline +:+ "    ") errors)
  = ("  texture_" +:+ pretty n +:+ " (" +:+ label +:+ "):")
      :: "    All backends failed:"
      :: ((λ e, "        " +:+ e) <$> errors).
Proof.
  intros Hne Hall. destruct errors as [|e es]; [done|].
  unfold failure_lines, splitlines. f_equal.
  change (newline +:+ ?x) with (String (ascii_of_nat 10) x).
  rewrite splitlines_go_line by done.
  rewrite splitlines_entries by done.
  cbn [fmap list_fmap]. f_equal. f_equal.
  rewrite <- list_fmap_compose. done.
Qed.

Lemma failure_lines_of_aggregated_error_witness :
  failure_lines
    (0, "d/a.png",
     "All backends failed:" +:+ newline +:+ "    "
       +:+ String.concat (newline +:+ "    ")
             [ "imageio: unsupported DDS format";
               "texconv: ERROR: unsupported format" ])
  = ("  texture_" +:+ pretty 0 +:+ " (" +:+ "d/a.png" +:+ "):")
      :: "    All backends failed:"
      :: ((λ e, "        " +:+ e)
            <$> [ "imageio: unsupported DDS format";
                  "texconv: ERROR: unsupported format" ]).
Proof.
  apply failure_lines_of_aggregated_error; [done|].
  repeat constructor.
Defined.
